(** * SoLoud biquad resonant filter: a shallow embedding and its properties

    Source: [src/demos/piano/soloud_biquadresonantfilter.cpp]
    (after "Using the Biquad Resonant Filter", Phil Burk, Game Programming
    Gems 3, p. 606).

    The C++ arithmetic is single and double precision floating point.  The
    development is parametric in that arithmetic: every operator the source
    applies is one operation of the interface [FloatArith], with no algebraic
    law assumed, so that each result below holds for IEEE arithmetic as for
    any other interpretation, and two values are equal only if they are
    computed by the same operations on the same operands. *)

From Stdlib Require Import ZArith List Lia Bool QArith Qround.
Import ListNotations.
Open Scope Z_scope.

(** ** Arithmetic of the target *)

Class FloatArith : Type := {
  float  : Type;                         (* C++ [float]  *)
  double : Type;                         (* C++ [double] *)
  flit : Q -> float;                     (* a literal with suffix f: [2.0f] *)
  dlit : Q -> double;                    (* a literal without suffix: [1.0E-26] *)
  f_of_int : Z -> float;                 (* conversion of an [int] operand *)
  f2d : float -> double;                 (* promotion in a mixed expression *)
  d2f : double -> float;                 (* the cast [(float)] *)
  M_PI : double;                         (* macro of <math.h> *)
  fadd : float -> float -> float;
  fsub : float -> float -> float;
  fmul : float -> float -> float;
  fdiv : float -> float -> float;
  fneg : float -> float;
  feqb : float -> float -> bool;         (* [==] *)
  fleb : float -> float -> bool;         (* [<=] *)
  dmul : double -> double -> double;
  ddiv : double -> double -> double;
  dsin : double -> double;               (* [sin] of <math.h> *)
  dcos : double -> double                (* [cos] of <math.h> *)
}.

Declare Scope flt_scope.
Delimit Scope flt_scope with flt.
Infix "+" := fadd : flt_scope.
Infix "-" := fsub : flt_scope.
Infix "*" := fmul : flt_scope.
Infix "/" := fdiv : flt_scope.
Notation "- x" := (fneg x) : flt_scope.
Infix "==" := feqb (at level 70, no associativity) : flt_scope.
Infix "<=?" := fleb : flt_scope.

(** ** The fader (class [Fader], declared in soloud_fader.h)

    The filter reads and writes the public field [mActive] and calls [set],
    [setLFO] and [get].  The other fields and the member functions are in
    soloud_fader.h and soloud_fader.cpp, which are not among the sources, so
    they are parameters of the development: no result below depends on what
    a fader computes. *)

Module Fader.
Record Fader (Data : Type) : Type := mk {
  mActive : Z;
  mData : Data
}.
Arguments mk {Data} _ _.
Arguments mActive {Data} _.
Arguments mData {Data} _.

(** The assignment [fader.mActive = v]. *)
Definition set_mActive {Data} (v : Z) (f : Fader Data) : Fader Data :=
  mk v (mData f).
End Fader.

Class FaderOps `{FloatArith} : Type := {
  FaderData : Type;
  (* [Fader::Fader()] *)
  Fader_ctor : Fader.Fader FaderData;
  (* [void Fader::set(float aFrom, float aTo, float aTime, float aStartTime)] *)
  Fader_set : float -> float -> float -> float ->
              Fader.Fader FaderData -> Fader.Fader FaderData;
  (* [void Fader::setLFO(float aFrom, float aTo, float aTime, float aStartTime)] *)
  Fader_setLFO : float -> float -> float -> float ->
                 Fader.Fader FaderData -> Fader.Fader FaderData;
  (* [float Fader::get(float aCurrentTime)]: the value, and the fader after the call *)
  Fader_get : float -> Fader.Fader FaderData -> float * Fader.Fader FaderData
}.

(** ** The filter template (class [BiquadResonantFilter]) *)

Module BiquadResonantFilter.

(** Modelled from the spec: the enumerations of soloud_biquadresonantfilter.h,
    which is not among the sources.  The spec lists the filter types as
    {NONE, LOWPASS, HIGHPASS, BANDPASS} and gives the attributes as
    FREQUENCY=0, SAMPLERATE=1, RESONANCE=2. *)
Definition NONE : Z := 0.
Definition LOWPASS : Z := 1.
Definition HIGHPASS : Z := 2.
Definition BANDPASS : Z := 3.

Definition FREQUENCY : Z := 0.
Definition SAMPLERATE : Z := 1.
Definition RESONANCE : Z := 2.

Section Template.
Context `{FloatArith}.

Record BiquadResonantFilter : Type := mk {
  mFilterType : Z;
  mSampleRate : float;
  mFrequency : float;
  mResonance : float
}.

(** [void BiquadResonantFilter::setParams(int, float, float, float)] *)
Definition setParams (aType : Z) (aSampleRate aFrequency aResonance : float)
    (this : BiquadResonantFilter) : BiquadResonantFilter :=
  mk aType aSampleRate aFrequency aResonance.

(** [BiquadResonantFilter::BiquadResonantFilter()] *)
Definition ctor (raw : BiquadResonantFilter) : BiquadResonantFilter :=
  setParams LOWPASS (f_of_int 44100) (f_of_int 1000) (f_of_int 2) raw.

End Template.

End BiquadResonantFilter.

Import BiquadResonantFilter(NONE, LOWPASS, HIGHPASS, BANDPASS,
                            FREQUENCY, SAMPLERATE, RESONANCE).

(** ** The filter instance (class [BiquadResonantFilterInstance]) *)

Section Model.
Context `{FO : FaderOps}.

Local Open Scope flt_scope.

(** A member [float m[2]].  The filter indexes it by the channel, 0 or 1. *)
Definition float2 : Type := (float * float)%type.

Definition aget (a : float2) (s : Z) : float :=
  if (s =? 0)%Z then fst a else snd a.

Definition aset (a : float2) (s : Z) (v : float) : float2 :=
  if (s =? 0)%Z then (v, snd a) else (fst a, v).

Definition FaderT : Type := Fader.Fader FaderData.

Record BiquadResonantFilterInstance : Type := mkInstance {
  mActive : Z;
  mY1 : float2;
  mY2 : float2;
  mX1 : float2;
  mX2 : float2;
  mA0 : float;
  mA1 : float;
  mA2 : float;
  mB1 : float;
  mB2 : float;
  mDirty : Z;
  mFilterType : Z;
  mSampleRate : float;
  mFrequency : float;
  mResonance : float;
  mResonanceFader : FaderT;
  mFrequencyFader : FaderT;
  mSampleRateFader : FaderT;
  mParent : Z                      (* the address held by the pointer *)
}.

(** Assignments to one member. *)
Definition set_mActive (v : Z) (t : BiquadResonantFilterInstance)
  : BiquadResonantFilterInstance :=
  let 'mkInstance _ f1 f2 f3 f4 f5 f6 f7 f8 f9
       f10 f11 f12 f13 f14 f15 f16 f17 f18 := t in
  mkInstance v f1 f2 f3 f4 f5 f6 f7 f8 f9
    f10 f11 f12 f13 f14 f15 f16 f17 f18.
Definition set_mY1 (v : float2) (t : BiquadResonantFilterInstance)
  : BiquadResonantFilterInstance :=
  let 'mkInstance f0 _ f2 f3 f4 f5 f6 f7 f8 f9
       f10 f11 f12 f13 f14 f15 f16 f17 f18 := t in
  mkInstance f0 v f2 f3 f4 f5 f6 f7 f8 f9
    f10 f11 f12 f13 f14 f15 f16 f17 f18.
Definition set_mY2 (v : float2) (t : BiquadResonantFilterInstance)
  : BiquadResonantFilterInstance :=
  let 'mkInstance f0 f1 _ f3 f4 f5 f6 f7 f8 f9
       f10 f11 f12 f13 f14 f15 f16 f17 f18 := t in
  mkInstance f0 f1 v f3 f4 f5 f6 f7 f8 f9
    f10 f11 f12 f13 f14 f15 f16 f17 f18.
Definition set_mX1 (v : float2) (t : BiquadResonantFilterInstance)
  : BiquadResonantFilterInstance :=
  let 'mkInstance f0 f1 f2 _ f4 f5 f6 f7 f8 f9
       f10 f11 f12 f13 f14 f15 f16 f17 f18 := t in
  mkInstance f0 f1 f2 v f4 f5 f6 f7 f8 f9
    f10 f11 f12 f13 f14 f15 f16 f17 f18.
Definition set_mX2 (v : float2) (t : BiquadResonantFilterInstance)
  : BiquadResonantFilterInstance :=
  let 'mkInstance f0 f1 f2 f3 _ f5 f6 f7 f8 f9
       f10 f11 f12 f13 f14 f15 f16 f17 f18 := t in
  mkInstance f0 f1 f2 f3 v f5 f6 f7 f8 f9
    f10 f11 f12 f13 f14 f15 f16 f17 f18.
Definition set_mA0 (v : float) (t : BiquadResonantFilterInstance)
  : BiquadResonantFilterInstance :=
  let 'mkInstance f0 f1 f2 f3 f4 _ f6 f7 f8 f9
       f10 f11 f12 f13 f14 f15 f16 f17 f18 := t in
  mkInstance f0 f1 f2 f3 f4 v f6 f7 f8 f9
    f10 f11 f12 f13 f14 f15 f16 f17 f18.
Definition set_mA1 (v : float) (t : BiquadResonantFilterInstance)
  : BiquadResonantFilterInstance :=
  let 'mkInstance f0 f1 f2 f3 f4 f5 _ f7 f8 f9
       f10 f11 f12 f13 f14 f15 f16 f17 f18 := t in
  mkInstance f0 f1 f2 f3 f4 f5 v f7 f8 f9
    f10 f11 f12 f13 f14 f15 f16 f17 f18.
Definition set_mA2 (v : float) (t : BiquadResonantFilterInstance)
  : BiquadResonantFilterInstance :=
  let 'mkInstance f0 f1 f2 f3 f4 f5 f6 _ f8 f9
       f10 f11 f12 f13 f14 f15 f16 f17 f18 := t in
  mkInstance f0 f1 f2 f3 f4 f5 f6 v f8 f9
    f10 f11 f12 f13 f14 f15 f16 f17 f18.
Definition set_mB1 (v : float) (t : BiquadResonantFilterInstance)
  : BiquadResonantFilterInstance :=
  let 'mkInstance f0 f1 f2 f3 f4 f5 f6 f7 _ f9
       f10 f11 f12 f13 f14 f15 f16 f17 f18 := t in
  mkInstance f0 f1 f2 f3 f4 f5 f6 f7 v f9
    f10 f11 f12 f13 f14 f15 f16 f17 f18.
Definition set_mB2 (v : float) (t : BiquadResonantFilterInstance)
  : BiquadResonantFilterInstance :=
  let 'mkInstance f0 f1 f2 f3 f4 f5 f6 f7 f8 _
       f10 f11 f12 f13 f14 f15 f16 f17 f18 := t in
  mkInstance f0 f1 f2 f3 f4 f5 f6 f7 f8 v
    f10 f11 f12 f13 f14 f15 f16 f17 f18.
Definition set_mDirty (v : Z) (t : BiquadResonantFilterInstance)
  : BiquadResonantFilterInstance :=
  let 'mkInstance f0 f1 f2 f3 f4 f5 f6 f7 f8 f9
       _ f11 f12 f13 f14 f15 f16 f17 f18 := t in
  mkInstance f0 f1 f2 f3 f4 f5 f6 f7 f8 f9
    v f11 f12 f13 f14 f15 f16 f17 f18.
Definition set_mFilterType (v : Z) (t : BiquadResonantFilterInstance)
  : BiquadResonantFilterInstance :=
  let 'mkInstance f0 f1 f2 f3 f4 f5 f6 f7 f8 f9
       f10 _ f12 f13 f14 f15 f16 f17 f18 := t in
  mkInstance f0 f1 f2 f3 f4 f5 f6 f7 f8 f9
    f10 v f12 f13 f14 f15 f16 f17 f18.
Definition set_mSampleRate (v : float) (t : BiquadResonantFilterInstance)
  : BiquadResonantFilterInstance :=
  let 'mkInstance f0 f1 f2 f3 f4 f5 f6 f7 f8 f9
       f10 f11 _ f13 f14 f15 f16 f17 f18 := t in
  mkInstance f0 f1 f2 f3 f4 f5 f6 f7 f8 f9
    f10 f11 v f13 f14 f15 f16 f17 f18.
Definition set_mFrequency (v : float) (t : BiquadResonantFilterInstance)
  : BiquadResonantFilterInstance :=
  let 'mkInstance f0 f1 f2 f3 f4 f5 f6 f7 f8 f9
       f10 f11 f12 _ f14 f15 f16 f17 f18 := t in
  mkInstance f0 f1 f2 f3 f4 f5 f6 f7 f8 f9
    f10 f11 f12 v f14 f15 f16 f17 f18.
Definition set_mResonance (v : float) (t : BiquadResonantFilterInstance)
  : BiquadResonantFilterInstance :=
  let 'mkInstance f0 f1 f2 f3 f4 f5 f6 f7 f8 f9
       f10 f11 f12 f13 _ f15 f16 f17 f18 := t in
  mkInstance f0 f1 f2 f3 f4 f5 f6 f7 f8 f9
    f10 f11 f12 f13 v f15 f16 f17 f18.
Definition set_mResonanceFader (v : FaderT) (t : BiquadResonantFilterInstance)
  : BiquadResonantFilterInstance :=
  let 'mkInstance f0 f1 f2 f3 f4 f5 f6 f7 f8 f9
       f10 f11 f12 f13 f14 _ f16 f17 f18 := t in
  mkInstance f0 f1 f2 f3 f4 f5 f6 f7 f8 f9
    f10 f11 f12 f13 f14 v f16 f17 f18.
Definition set_mFrequencyFader (v : FaderT) (t : BiquadResonantFilterInstance)
  : BiquadResonantFilterInstance :=
  let 'mkInstance f0 f1 f2 f3 f4 f5 f6 f7 f8 f9
       f10 f11 f12 f13 f14 f15 _ f17 f18 := t in
  mkInstance f0 f1 f2 f3 f4 f5 f6 f7 f8 f9
    f10 f11 f12 f13 f14 f15 v f17 f18.
Definition set_mSampleRateFader (v : FaderT) (t : BiquadResonantFilterInstance)
  : BiquadResonantFilterInstance :=
  let 'mkInstance f0 f1 f2 f3 f4 f5 f6 f7 f8 f9
       f10 f11 f12 f13 f14 f15 f16 _ f18 := t in
  mkInstance f0 f1 f2 f3 f4 f5 f6 f7 f8 f9
    f10 f11 f12 f13 f14 f15 f16 v f18.
Definition set_mParent (v : Z) (t : BiquadResonantFilterInstance)
  : BiquadResonantFilterInstance :=
  let 'mkInstance f0 f1 f2 f3 f4 f5 f6 f7 f8 f9
       f10 f11 f12 f13 f14 f15 f16 f17 _ := t in
  mkInstance f0 f1 f2 f3 f4 f5 f6 f7 f8 f9
    f10 f11 f12 f13 f14 f15 f16 f17 v.

(** *** [void BiquadResonantFilterInstance::calcBQRParams()] *)
Definition calcBQRParams (this : BiquadResonantFilterInstance)
    : BiquadResonantFilterInstance :=
    let this := set_mDirty 0 this in
    let omega : float :=
      d2f (ddiv (dmul (dmul (f2d (flit 2)) M_PI) (f2d (mFrequency this)))
                (f2d (mSampleRate this))) in
    let sin_omega : float := d2f (dsin (f2d omega)) in
    let cos_omega : float := d2f (dcos (f2d omega)) in
    let alpha : float := sin_omega / (flit 2 * mResonance this) in
    let scalar : float := flit 1 / (flit 1 + alpha) in
    let this := set_mActive 1 this in
    if (mFilterType this =? NONE)%Z then
      set_mActive 0 this
    else if (mFilterType this =? LOWPASS)%Z then
      let this := set_mA0 (flit (1#2) * (flit 1 - cos_omega) * scalar) this in
      let this := set_mA1 ((flit 1 - cos_omega) * scalar) this in
      let this := set_mA2 (mA0 this) this in
      let this := set_mB1 (- flit 2 * cos_omega * scalar) this in
      set_mB2 ((flit 1 - alpha) * scalar) this
    else if (mFilterType this =? HIGHPASS)%Z then
      let this := set_mA0 (flit (1#2) * (flit 1 + cos_omega) * scalar) this in
      let this := set_mA1 (- (flit 1 + cos_omega) * scalar) this in
      let this := set_mA2 (mA0 this) this in
      let this := set_mB1 (- flit 2 * cos_omega * scalar) this in
      set_mB2 ((flit 1 - alpha) * scalar) this
    else if (mFilterType this =? BANDPASS)%Z then
      let this := set_mA0 (alpha * scalar) this in
      let this := set_mA1 (f_of_int 0) this in
      let this := set_mA2 (- mA0 this) this in
      let this := set_mB1 (- flit 2 * cos_omega * scalar) this in
      set_mB2 ((flit 1 - alpha) * scalar) this
    else
      this.

(** *** [BiquadResonantFilterInstance::BiquadResonantFilterInstance(BiquadResonantFilter *aParent)]

    [raw] is the storage the object is built in: its scalar members hold
    whatever the storage held, since the class gives them no initializer.
    The three [Fader] members are default-constructed before the body runs.
    [aParent] is the address passed and [parent] the object it points to.
    [ctor_assignments] is the body up to the call of [calcBQRParams]. *)
Definition ctor_assignments
    (raw : BiquadResonantFilterInstance) (aParent : Z)
    (parent : BiquadResonantFilter.BiquadResonantFilter)
  : BiquadResonantFilterInstance :=
  let this := set_mResonanceFader Fader_ctor raw in
  let this := set_mFrequencyFader Fader_ctor this in
  let this := set_mSampleRateFader Fader_ctor this in
  let this := set_mParent aParent this in
  (* a chain of assignments runs from the right *)
  let this := set_mX2 (aset (mX2 this) 1 (f_of_int 0)) this in
  let this := set_mX1 (aset (mX1 this) 1 (aget (mX2 this) 1)) this in
  let this := set_mY2 (aset (mY2 this) 1 (aget (mX1 this) 1)) this in
  let this := set_mY1 (aset (mY1 this) 1 (aget (mY2 this) 1)) this in
  let this := set_mX2 (aset (mX2 this) 0 (aget (mY1 this) 1)) this in
  let this := set_mX1 (aset (mX1 this) 0 (aget (mX2 this) 0)) this in
  let this := set_mY2 (aset (mY2 this) 0 (aget (mX1 this) 0)) this in
  let this := set_mY1 (aset (mY1 this) 0 (aget (mY2 this) 0)) this in
  let this := set_mFilterType (BiquadResonantFilter.mFilterType parent) this in
  let this := set_mSampleRate (BiquadResonantFilter.mSampleRate parent) this in
  set_mResonance (BiquadResonantFilter.mResonance parent) this.

Definition BiquadResonantFilterInstance_ctor
    (raw : BiquadResonantFilterInstance) (aParent : Z)
    (parent : BiquadResonantFilter.BiquadResonantFilter)
  : BiquadResonantFilterInstance :=
  calcBQRParams (ctor_assignments raw aParent parent).

(** [BiquadResonantFilterInstance *BiquadResonantFilter::createInstance()]:
    [new] provides the storage [raw]; [this] is the template's address. *)
Definition createInstance (this : Z)
    (self : BiquadResonantFilter.BiquadResonantFilter)
    (raw : BiquadResonantFilterInstance) : BiquadResonantFilterInstance :=
  BiquadResonantFilterInstance_ctor raw this self.

(** *** Loops and the sample buffer *)

(** [for (i = i0; i < bound; i += step) body], run for at most [fuel]
    iterations. *)
Fixpoint for_loop {St : Type} (fuel : nat) (i bound step : Z)
    (body : Z -> St -> St) (st : St) : St :=
  match fuel with
  | O => st
  | S fuel' =>
      if (i <? bound)%Z
      then for_loop fuel' (i + step)%Z bound step body (body i st)
      else st
  end.

(** [float *aBuffer]: the memory reachable from the pointer, by element
    offset.  The source never checks an offset against a length.  Offsets
    and counts are integers without overflow: a buffer is taken to have
    fewer than [INT_MAX] elements. *)
Definition Buffer : Type := Z -> float.

Definition store (b : Buffer) (k : Z) (v : float) : Buffer :=
  fun j => if (j =? k)%Z then v else b j.

(** *** [void BiquadResonantFilterInstance::filter(float *aBuffer, int aSamples,
        int aStereo, float aSamplerate, float aTime)] *)

(** One pass through the body of the inner loop (two samples). *)
Definition filter_pair (pitch s i : Z)
    (st : BiquadResonantFilterInstance * Buffer)
  : BiquadResonantFilterInstance * Buffer :=
  let '(this, aBuffer) := st in
  let x := aBuffer (i * pitch + s)%Z in
  let this :=
    set_mY2 (aset (mY2 this) s
               ((mA0 this * x) + (mA1 this * aget (mX1 this) s)
                + (mA2 this * aget (mX2 this) s)
                - (mB1 this * aget (mY1 this) s)
                - (mB2 this * aget (mY2 this) s))) this in
  let aBuffer := store aBuffer (i * pitch + s)%Z (aget (mY2 this) s) in
  let this :=
    set_mX2 (aset (mX2 this) s (aBuffer ((i + 1) * pitch + s)%Z)) this in
  let this :=
    set_mY1 (aset (mY1 this) s
               ((mA0 this * aget (mX2 this) s) + (mA1 this * x)
                + (mA2 this * aget (mX1 this) s)
                - (mB1 this * aget (mY2 this) s)
                - (mB2 this * aget (mY1 this) s))) this in
  let aBuffer := store aBuffer ((i + 1) * pitch + s)%Z (aget (mY1 this) s) in
  let this := set_mX1 (aset (mX1 this) s (aget (mX2 this) s)) this in
  let this := set_mX2 (aset (mX2 this) s x) this in
  (this, aBuffer).

(** The inner loop, [for (i = 0; i < aSamples; i += 2)]. *)
Definition filter_samples (aSamples pitch s : Z)
    (st : BiquadResonantFilterInstance * Buffer)
  : BiquadResonantFilterInstance * Buffer :=
  for_loop (Z.to_nat aSamples) 0 aSamples 2 (filter_pair pitch s) st.

(** The statement after the inner loop, [mY1[s] += (float) 1.0E-26]. *)
Definition filter_bias (s : Z) (this : BiquadResonantFilterInstance)
  : BiquadResonantFilterInstance :=
  set_mY1 (aset (mY1 this) s
             (aget (mY1 this) s + d2f (dlit (1 # 100000000000000000000000000))))
          this.

(** One pass through the body of the outer loop (one channel). *)
Definition filter_channel (aSamples pitch s : Z)
    (st : BiquadResonantFilterInstance * Buffer)
  : BiquadResonantFilterInstance * Buffer :=
  let '(this, aBuffer) := filter_samples aSamples pitch s st in
  (filter_bias s this, aBuffer).

(** The three fader tests. *)
Definition filter_faders (aTime : float) (this : BiquadResonantFilterInstance)
  : BiquadResonantFilterInstance :=
  let this :=
    if (0 <? Fader.mActive (mFrequencyFader this))%Z then
      let this := set_mDirty 1 this in
      let '(v, fd) := Fader_get aTime (mFrequencyFader this) in
      set_mFrequency v (set_mFrequencyFader fd this)
    else this in
  let this :=
    if (0 <? Fader.mActive (mResonanceFader this))%Z then
      let this := set_mDirty 1 this in
      let '(v, fd) := Fader_get aTime (mResonanceFader this) in
      set_mResonance v (set_mResonanceFader fd this)
    else this in
  if (0 <? Fader.mActive (mSampleRateFader this))%Z then
    let this := set_mDirty 1 this in
    let '(v, fd) := Fader_get aTime (mSampleRateFader this) in
    set_mSampleRate v (set_mSampleRateFader fd this)
  else this.

(** The fader tests followed by [if (mDirty) calcBQRParams()]: the instance
    as the sample loops find it. *)
Definition filter_prepare (aTime : float) (this : BiquadResonantFilterInstance)
  : BiquadResonantFilterInstance :=
  let this := filter_faders aTime this in
  if (mDirty this =? 0)%Z then this else calcBQRParams this.

Definition filter (this : BiquadResonantFilterInstance) (aBuffer : Buffer)
    (aSamples aStereo : Z) (aSamplerate aTime : float)
  : BiquadResonantFilterInstance * Buffer :=
  if (mActive this =? 0)%Z then (this, aBuffer)
  else
    let this := filter_prepare aTime this in
    let pitch := if (aStereo =? 0)%Z then 1%Z else 2%Z in
    for_loop (Z.to_nat pitch) 0 pitch 1 (filter_channel aSamples pitch)
             (this, aBuffer).

(** *** [void BiquadResonantFilterInstance::setFilterParameter(int aAttributeId,
        float aValue)] *)
Definition setFilterParameter (aAttributeId : Z) (aValue : float)
    (this : BiquadResonantFilterInstance) : BiquadResonantFilterInstance :=
  if (aAttributeId =? FREQUENCY)%Z then
    let this := set_mDirty 1 this in
    let this :=
      set_mFrequencyFader (Fader.set_mActive 0 (mFrequencyFader this)) this in
    set_mFrequency aValue this
  else if (aAttributeId =? SAMPLERATE)%Z then
    let this := set_mDirty 1 this in
    let this :=
      set_mSampleRateFader (Fader.set_mActive 0 (mSampleRateFader this)) this in
    set_mSampleRate aValue this
  else if (aAttributeId =? RESONANCE)%Z then
    let this := set_mDirty 1 this in
    let this :=
      set_mResonanceFader (Fader.set_mActive 0 (mResonanceFader this)) this in
    set_mResonance aValue this
  else this.

(** *** [void BiquadResonantFilterInstance::fadeFilterParameter(int aAttributeId,
        float aFrom, float aTo, float aTime, float aStartTime)] *)
Definition fadeFilterParameter (aAttributeId : Z)
    (aFrom aTo aTime aStartTime : float)
    (this : BiquadResonantFilterInstance) : BiquadResonantFilterInstance :=
  if (aFrom == aTo) || (aTime <=? f_of_int 0) then this
  else if (aAttributeId =? FREQUENCY)%Z then
    set_mFrequencyFader
      (Fader_set aFrom aTo aTime aStartTime (mFrequencyFader this)) this
  else if (aAttributeId =? SAMPLERATE)%Z then
    set_mSampleRateFader
      (Fader_set aFrom aTo aTime aStartTime (mSampleRateFader this)) this
  else if (aAttributeId =? RESONANCE)%Z then
    set_mResonanceFader
      (Fader_set aFrom aTo aTime aStartTime (mResonanceFader this)) this
  else this.

(** *** [void BiquadResonantFilterInstance::oscillateFilterParameter(int
        aAttributeId, float aFrom, float aTo, float aTime, float aStartTime)] *)
Definition oscillateFilterParameter (aAttributeId : Z)
    (aFrom aTo aTime aStartTime : float)
    (this : BiquadResonantFilterInstance) : BiquadResonantFilterInstance :=
  if (aFrom == aTo) || (aTime <=? f_of_int 0) then this
  else if (aAttributeId =? FREQUENCY)%Z then
    set_mFrequencyFader
      (Fader_setLFO aFrom aTo aTime aStartTime (mFrequencyFader this)) this
  else if (aAttributeId =? SAMPLERATE)%Z then
    set_mSampleRateFader
      (Fader_setLFO aFrom aTo aTime aStartTime (mSampleRateFader this)) this
  else if (aAttributeId =? RESONANCE)%Z then
    set_mResonanceFader
      (Fader_setLFO aFrom aTo aTime aStartTime (mResonanceFader this)) this
  else this.

End Model.

(** ** What the specification says, in the same arithmetic *)

Section Specification.
Context `{FA : FloatArith}.

Local Open Scope flt_scope.

(** The three filter types that have coefficients (§4.1). *)
Inductive ResonantType : Type := LowPass | HighPass | BandPass.

Definition type_code (k : ResonantType) : Z :=
  match k with
  | LowPass => LOWPASS
  | HighPass => HIGHPASS
  | BandPass => BANDPASS
  end.

Record Coefficients : Type := mkCoefficients {
  a0 : float; a1 : float; a2 : float; b1 : float; b2 : float
}.

(** §4.1, written after the spec: [omega = 2·π·frequency / sampleRate],
    [alpha = sinOmega / (2·resonance)], [scalar = 1 / (1 + alpha)] and the
    closed forms per type.  The product with π is a double precision one, as
    π is a double precision constant; sine and cosine are those of the
    mathematical library. *)
Definition spec_coefficients (k : ResonantType)
    (sampleRate frequency resonance : float) : Coefficients :=
  let omega :=
    d2f (ddiv (dmul (dmul (f2d (flit 2)) M_PI) (f2d frequency))
              (f2d sampleRate)) in
  let sinOmega := d2f (dsin (f2d omega)) in
  let cosOmega := d2f (dcos (f2d omega)) in
  let alpha := sinOmega / (flit 2 * resonance) in
  let scalar := flit 1 / (flit 1 + alpha) in
  let b1 := - flit 2 * cosOmega * scalar in
  let b2 := (flit 1 - alpha) * scalar in
  match k with
  | LowPass =>
      let a0 := flit (1#2) * (flit 1 - cosOmega) * scalar in
      mkCoefficients a0 ((flit 1 - cosOmega) * scalar) a0 b1 b2
  | HighPass =>
      let a0 := flit (1#2) * (flit 1 + cosOmega) * scalar in
      mkCoefficients a0 (- (flit 1 + cosOmega) * scalar) a0 b1 b2
  | BandPass =>
      let a0 := alpha * scalar in
      mkCoefficients a0 (f_of_int 0) (- a0) b1 b2
  end.

(** The history of one channel: the last two inputs and outputs. *)
Record History : Type := mkHistory {
  x1 : float; x2 : float; y1 : float; y2 : float
}.

(** The direct-form recurrence, one sample at a time:
    [y[n] = a0*x[n] + a1*x[n-1] + a2*x[n-2] - b1*y[n-1] - b2*y[n-2]]. *)
Definition direct_form_step (c : Coefficients) (h : History) (x : float)
  : float * History :=
  let y := a0 c * x + a1 c * x1 h + a2 c * x2 h - b1 c * y1 h - b2 c * y2 h in
  (y, mkHistory x (x1 h) y (y1 h)).

Fixpoint direct_form (c : Coefficients) (h : History) (xs : list float)
  : list float * History :=
  match xs with
  | [] => ([], h)
  | x :: xs' =>
      let '(y, h') := direct_form_step c h x in
      let '(ys, h'') := direct_form c h' xs' in
      (y :: ys, h'')
  end.

End Specification.

(** ** Views of an instance *)

Section Views.
Context `{FO : FaderOps}.

Definition coefficients (this : BiquadResonantFilterInstance) : Coefficients :=
  mkCoefficients (mA0 this) (mA1 this) (mA2 this) (mB1 this) (mB2 this).

Definition history (this : BiquadResonantFilterInstance) (s : Z) : History :=
  mkHistory (aget (mX1 this) s) (aget (mX2 this) s)
            (aget (mY1 this) s) (aget (mY2 this) s).

Definition with_history (s : Z) (h : History)
    (this : BiquadResonantFilterInstance) : BiquadResonantFilterInstance :=
  set_mX1 (aset (mX1 this) s (x1 h))
    (set_mX2 (aset (mX2 this) s (x2 h))
      (set_mY1 (aset (mY1 this) s (y1 h))
        (set_mY2 (aset (mY2 this) s (y2 h)) this))).

(** The samples of channel [s] in an interleaved buffer: elements
    [0*pitch+s, 1*pitch+s, ..., (n-1)*pitch+s]. *)
Definition channel_samples (b : Buffer) (pitch s : Z) (n : nat) : list float :=
  map (fun k => b (Z.of_nat k * pitch + s)%Z) (seq 0 n).

(** An attribute identifier the switch statements know. *)
Definition known_attribute (aAttributeId : Z) : bool :=
  (aAttributeId =? FREQUENCY)%Z || (aAttributeId =? SAMPLERATE)%Z
  || (aAttributeId =? RESONANCE)%Z.

(** A fader counts as active when the filter's test [mActive > 0] passes. *)
Definition fader_active (f : FaderT) : bool := (0 <? Fader.mActive f)%Z.

(** The coefficients agree with the parameters: for the three types of §4.1
    they are the closed forms; NONE, and a type outside the enumeration,
    have no coefficients to agree with. *)
Definition consistent (this : BiquadResonantFilterInstance) : Prop :=
  forall k : ResonantType,
    mFilterType this = type_code k ->
    coefficients this =
      spec_coefficients k (mSampleRate this) (mFrequency this) (mResonance this).

(** The invariant of §3: clean coefficients are consistent. *)
Definition coefficient_invariant (this : BiquadResonantFilterInstance) : Prop :=
  mDirty this = 0%Z -> consistent this.

(** The members outside the four history arrays. *)
Definition settings (this : BiquadResonantFilterInstance) :=
  (mActive this, coefficients this, mDirty this, mFilterType this,
   (mSampleRate this, mFrequency this, mResonance this),
   (mResonanceFader this, mFrequencyFader this, mSampleRateFader this),
   mParent this).

(** The constant of the statement after the inner loop. *)
Definition bias : float := d2f (dlit (1 # 100000000000000000000000000)).

Definition zero_history : History :=
  mkHistory (f_of_int 0) (f_of_int 0) (f_of_int 0) (f_of_int 0).

(** Channel [s'] is not the channel [s]: the arrays have two elements, and
    an index is element 0 or element 1. *)
Definition other_channel (s s' : Z) : Prop := (s' =? 0)%Z <> (s =? 0)%Z.

(** [after] is [before] with the bias added to [mY1[s]] and nothing else
    changed. *)
Definition biased (s : Z) (before after : BiquadResonantFilterInstance) : Prop :=
  history after s =
    mkHistory (x1 (history before s)) (x2 (history before s))
              (fadd (y1 (history before s)) bias) (y2 (history before s))
  /\ (forall s', other_channel s s' -> history after s' = history before s')
  /\ settings after = settings before.

(** [n] samples of channel [s], from sample [i] on. *)
Fixpoint samples_from (b : Buffer) (pitch s i : Z) (n : nat) : list float :=
  match n with
  | O => []
  | S n' => b (i * pitch + s)%Z :: samples_from b pitch s (i + 1)%Z n'
  end.

(** The buffer after [ys] is written to channel [s], from sample [i] on. *)
Fixpoint write_channel (b : Buffer) (pitch s i : Z) (ys : list float) : Buffer :=
  match ys with
  | [] => b
  | y :: ys' => write_channel (store b (i * pitch + s)%Z y) pitch s (i + 1)%Z ys'
  end.

(** A history with the bias added to its last output. *)
Definition bias_y1 (h : History) : History :=
  mkHistory (x1 h) (x2 h) (fadd (y1 h) bias) (y2 h).

(** The instances a program can hold: one made by [createInstance] from the
    template [self], then used through the public member functions. *)
Inductive reachable (self : BiquadResonantFilter.BiquadResonantFilter)
  : BiquadResonantFilterInstance -> Prop :=
| reach_create (this : Z) (raw : BiquadResonantFilterInstance) :
    reachable self (createInstance this self raw)
| reach_set (t : BiquadResonantFilterInstance) (aAttributeId : Z)
    (aValue : float) :
    reachable self t ->
    reachable self (setFilterParameter aAttributeId aValue t)
| reach_fade (t : BiquadResonantFilterInstance) (aAttributeId : Z)
    (aFrom aTo aTime aStartTime : float) :
    reachable self t ->
    reachable self (fadeFilterParameter aAttributeId aFrom aTo aTime aStartTime t)
| reach_oscillate (t : BiquadResonantFilterInstance) (aAttributeId : Z)
    (aFrom aTo aTime aStartTime : float) :
    reachable self t ->
    reachable self
      (oscillateFilterParameter aAttributeId aFrom aTo aTime aStartTime t)
| reach_filter (t : BiquadResonantFilterInstance) (aBuffer : Buffer)
    (aSamples aStereo : Z) (aSamplerate aTime : float) :
    reachable self t ->
    reachable self (fst (filter t aBuffer aSamples aStereo aSamplerate aTime)).

End Views.

(** ** A model to run the definitions on: exact rational arithmetic

    Sine and cosine are cut-off power series and π is 355/113: the model
    serves to evaluate the functions above on concrete inputs, not to
    approximate the sound. *)

Module Rational.

Definition qsin (x : Q) : Q := Qred (x - x * x * x / 6)%Q.
Definition qcos (x : Q) : Q := Qred (1 - x * x / 2)%Q.

#[export] Instance arith : FloatArith := {|
  float := Q;
  double := Q;
  flit := Qred;
  dlit := Qred;
  f_of_int := inject_Z;
  f2d := fun x => x;
  d2f := fun x => x;
  M_PI := (355 # 113)%Q;
  fadd := fun x y => Qred (x + y)%Q;
  fsub := fun x y => Qred (x - y)%Q;
  fmul := fun x y => Qred (x * y)%Q;
  fdiv := fun x y => Qred (x / y)%Q;
  fneg := fun x => Qred (- x)%Q;
  feqb := Qeq_bool;
  fleb := Qle_bool;
  dmul := fun x y => Qred (x * y)%Q;
  ddiv := fun x y => Qred (x / y)%Q;
  dsin := qsin;
  dcos := qcos
|}.

(** Modelled from the spec: the fader of soloud_fader.h and soloud_fader.cpp,
    which are not among the sources, after §3 and §4.2: bounds, duration and
    start time; a ramp is linear, reports [to] from [startTime + duration] on
    and becomes inactive; an oscillation has period [duration] and stays
    active. *)
Record Ramp : Type := mkRamp {
  from : Q; to : Q; duration : Q; startTime : Q
}.

Definition value_at (time : Q) (f : Fader.Fader Ramp)
  : Q * Fader.Fader Ramp :=
  let r := Fader.mData f in
  let p := ((time - startTime r) / duration r)%Q in
  if (Fader.mActive f =? 2)%Z then
    let q := (p - inject_Z (Qfloor p))%Q in
    let w := if Qle_bool q (1 # 2) then (2 * q)%Q else (2 - 2 * q)%Q in
    (Qred (from r + (to r - from r) * w)%Q, f)
  else if Qle_bool (startTime r + duration r)%Q time then
    (to r, Fader.set_mActive 0 f)
  else
    (Qred (from r + (to r - from r) * p)%Q, f).

#[export] Instance fader : FaderOps := {|
  FaderData := Ramp;
  Fader_ctor := Fader.mk 0 (mkRamp 0 0 0 0);
  Fader_set := fun a b d t0 _ => Fader.mk 1 (mkRamp a b d t0);
  Fader_setLFO := fun a b d t0 _ => Fader.mk 2 (mkRamp a b d t0);
  Fader_get := value_at
|}.

(** Concrete inputs. *)

Definition hz (n : Z) : float := inject_Z n.

Definition template0 : BiquadResonantFilter.BiquadResonantFilter :=
  BiquadResonantFilter.ctor (BiquadResonantFilter.mk 0 0 0 0)%Q.

(** Storage whose previous contents are recognisable. *)
Definition raw0 : BiquadResonantFilterInstance :=
  mkInstance 7 (11, 12)%Q (13, 14)%Q (15, 16)%Q (17, 18)%Q
             21%Q 22%Q 23%Q 24%Q 25%Q 9 5 31%Q 32%Q 33%Q
             (Fader.mk 3 (mkRamp 1 2 3 4)) (Fader.mk 3 (mkRamp 1 2 3 4))
             (Fader.mk 3 (mkRamp 1 2 3 4)) 0.

(** A low-pass instance of the default template, as constructed. *)
Definition fresh0 : BiquadResonantFilterInstance :=
  createInstance 4096 template0 raw0.

(** The same with its frequency set, and after one block has run. *)
Definition tuned0 : BiquadResonantFilterInstance :=
  setFilterParameter FREQUENCY (hz 1000) fresh0.

Definition buffer0 : Buffer :=
  fun k => if ((0 <=? k) && (k <? 8))%Z then inject_Z (k + 1) else 0%Q.

Definition running0 : BiquadResonantFilterInstance :=
  fst (filter tuned0 buffer0 4 1 (inject_Z 44100) 0%Q).

(** An instance of a template of type NONE. *)
Definition silent0 : BiquadResonantFilterInstance :=
  createInstance 4096
    (BiquadResonantFilter.setParams NONE (hz 44100) (hz 1000) (hz 2) template0)
    raw0.

(** [tuned0] with a ramp of the frequency from 100 to 2000 over one second. *)
Definition fading0 : BiquadResonantFilterInstance :=
  fadeFilterParameter FREQUENCY (hz 100) (hz 2000) (hz 1) (hz 0) tuned0.

(** A template whose type is no member of the enumeration. *)
Definition template7 : BiquadResonantFilter.BiquadResonantFilter :=
  BiquadResonantFilter.setParams 7 (hz 44100) (hz 1000) (hz 2) template0.

(** [buffer0] with other samples in channel 1 of a stereo block. *)
Definition buffer1 : Buffer :=
  fun k => if Z.even k then buffer0 k else hz 100.

End Rational.

(** ** Properties *)

Section Properties.
Context `{FO : FaderOps}.

Local Open Scope flt_scope.

(** Evaluation of the model's own functions, by value, leaving the
    arithmetic and the integer tests as they stand. *)
Ltac run_model :=
  cbv beta iota zeta delta
    [set_mActive set_mY1 set_mY2 set_mX1 set_mX2 set_mA0 set_mA1 set_mA2
     set_mB1 set_mB2 set_mDirty set_mFilterType set_mSampleRate set_mFrequency
     set_mResonance set_mResonanceFader set_mFrequencyFader
     set_mSampleRateFader set_mParent
     mActive mY1 mY2 mX1 mX2 mA0 mA1 mA2 mB1 mB2 mDirty mFilterType mSampleRate
     mFrequency mResonance mResonanceFader mFrequencyFader mSampleRateFader
     mParent
     aget aset history coefficients with_history settings zero_history bias
     x1 x2 y1 y2 a0 a1 a2 b1 b2
     ctor_assignments filter_pair filter_bias filter_faders fader_active
     direct_form_step
     Fader.mActive Fader.mData Fader.set_mActive
     BiquadResonantFilter.mFilterType BiquadResonantFilter.mSampleRate
     BiquadResonantFilter.mFrequency BiquadResonantFilter.mResonance
     fst snd].

Ltac open_instance t :=
  destruct t as [act [y10 y11] [y20 y21] [x10 x11] [x20 x21]
                 ca0 ca1 ca2 cb1 cb2 dirty ty sr fr re rf ff sf par].

(** *** Arrays of two *)

Lemma aget_aset_same (a : float2) (s : Z) (v : float) :
  aget (aset a s v) s = v.
Proof. unfold aget, aset; destruct (s =? 0)%Z; reflexivity. Qed.

Lemma aget_aset_other (a : float2) (v : float) :
  aget (aset a 0 v) 1 = aget a 1.
Proof. reflexivity. Qed.

(** *** The coefficient calculator *)

Lemma calcBQRParams_parameters (this : BiquadResonantFilterInstance) :
  mFilterType (calcBQRParams this) = mFilterType this
  /\ mSampleRate (calcBQRParams this) = mSampleRate this
  /\ mFrequency (calcBQRParams this) = mFrequency this
  /\ mResonance (calcBQRParams this) = mResonance this
  /\ mDirty (calcBQRParams this) = 0%Z.
Proof.
  open_instance this; unfold calcBQRParams; cbn.
  destruct (ty =? NONE)%Z; [cbn; auto |].
  destruct (ty =? LOWPASS)%Z; [cbn; auto |].
  destruct (ty =? HIGHPASS)%Z; [cbn; auto |].
  destruct (ty =? BANDPASS)%Z; cbn; auto.
Qed.

Lemma calcBQRParams_frame (this : BiquadResonantFilterInstance) (s : Z) :
  history (calcBQRParams this) s = history this s
  /\ mResonanceFader (calcBQRParams this) = mResonanceFader this
  /\ mFrequencyFader (calcBQRParams this) = mFrequencyFader this
  /\ mSampleRateFader (calcBQRParams this) = mSampleRateFader this
  /\ mParent (calcBQRParams this) = mParent this.
Proof.
  open_instance this; unfold calcBQRParams; cbn.
  destruct (ty =? NONE)%Z; [cbn; auto |].
  destruct (ty =? LOWPASS)%Z; [cbn; auto |].
  destruct (ty =? HIGHPASS)%Z; [cbn; auto |].
  destruct (ty =? BANDPASS)%Z; cbn; auto.
Qed.

Lemma calcBQRParams_coefficients
    (this : BiquadResonantFilterInstance) (k : ResonantType) :
  mFilterType this = type_code k ->
  coefficients (calcBQRParams this) =
    spec_coefficients k (mSampleRate this) (mFrequency this) (mResonance this).
Proof.
  intros Hk. open_instance this. cbn in Hk. subst ty.
  destruct k; reflexivity.
Qed.

Lemma calcBQRParams_consistent (this : BiquadResonantFilterInstance) :
  consistent (calcBQRParams this).
Proof.
  intros k Hk.
  destruct (calcBQRParams_parameters this) as (Ht & Hs & Hf & Hr & _).
  rewrite Hs, Hf, Hr. apply calcBQRParams_coefficients. congruence.
Qed.

Lemma calcBQRParams_active (this : BiquadResonantFilterInstance) :
  mActive (calcBQRParams this) = if (mFilterType this =? NONE)%Z then 0%Z else 1%Z.
Proof.
  open_instance this; unfold calcBQRParams; cbn.
  destruct (ty =? NONE)%Z; [reflexivity |].
  destruct (ty =? LOWPASS)%Z; [reflexivity |].
  destruct (ty =? HIGHPASS)%Z; [reflexivity |].
  destruct (ty =? BANDPASS)%Z; reflexivity.
Qed.

(** C1.  For an instance whose type is LOWPASS, HIGHPASS or BANDPASS and whose
    resonance does not compare equal to zero, [calcBQRParams] leaves in
    [mA0, mA1, mA2, mB1, mB2] the closed forms of §4.1 for that type, computed
    from the instance's sample rate, frequency and resonance. *)
Theorem calcBQRParams_closed_forms
    (this : BiquadResonantFilterInstance) (k : ResonantType) :
  mFilterType this = type_code k ->
  (mResonance this == f_of_int 0) = false ->
  coefficients (calcBQRParams this) =
    spec_coefficients k (mSampleRate this) (mFrequency this) (mResonance this).
Proof.
  intros Hk _. now apply calcBQRParams_coefficients.
Qed.

(** C3.  An inactive instance is returned by [filter] as it was, with the
    buffer it was given, whatever the other arguments; and that is the case
    of an instance whose coefficients were last computed with type NONE. *)
Theorem filter_inactive_identity
    (this : BiquadResonantFilterInstance) (aBuffer : Buffer)
    (aSamples aStereo : Z) (aSamplerate aTime : float) :
  (mActive this = 0%Z ->
   filter this aBuffer aSamples aStereo aSamplerate aTime = (this, aBuffer))
  /\ (mFilterType this = NONE ->
      mActive (calcBQRParams this) = 0%Z
      /\ filter (calcBQRParams this) aBuffer aSamples aStereo aSamplerate aTime
         = (calcBQRParams this, aBuffer)).
Proof.
  assert (Hin : forall t : BiquadResonantFilterInstance, mActive t = 0%Z ->
            filter t aBuffer aSamples aStereo aSamplerate aTime = (t, aBuffer)).
  { intros t Ht. unfold filter. rewrite Ht. reflexivity. }
  split; [apply Hin |].
  intros Hty.
  assert (Ha : mActive (calcBQRParams this) = 0%Z).
  { rewrite calcBQRParams_active, Hty. reflexivity. }
  split; [exact Ha | now apply Hin].
Qed.

(** C5.  [setFilterParameter] with FREQUENCY (SAMPLERATE, RESONANCE) stores the
    value in [mFrequency] ([mSampleRate], [mResonance]), makes the fader of
    that parameter inactive and sets [mDirty]; with any other identifier it
    returns the instance unchanged. *)
Theorem setFilterParameter_effect
    (aAttributeId : Z) (aValue : float) (this : BiquadResonantFilterInstance) :
  let r := setFilterParameter aAttributeId aValue this in
  (aAttributeId = FREQUENCY ->
     mFrequency r = aValue /\ Fader.mActive (mFrequencyFader r) = 0%Z
     /\ mDirty r = 1%Z)
  /\ (aAttributeId = SAMPLERATE ->
     mSampleRate r = aValue /\ Fader.mActive (mSampleRateFader r) = 0%Z
     /\ mDirty r = 1%Z)
  /\ (aAttributeId = RESONANCE ->
     mResonance r = aValue /\ Fader.mActive (mResonanceFader r) = 0%Z
     /\ mDirty r = 1%Z)
  /\ (known_attribute aAttributeId = false -> r = this).
Proof.
  open_instance this.
  cbv zeta. split; [| split; [| split]]; intros Hid;
    try (subst aAttributeId; repeat split; reflexivity).
  unfold known_attribute in Hid. unfold setFilterParameter.
  destruct (aAttributeId =? FREQUENCY)%Z; [discriminate |].
  destruct (aAttributeId =? SAMPLERATE)%Z; [discriminate |].
  destruct (aAttributeId =? RESONANCE)%Z; [discriminate | reflexivity].
Qed.

(** C7.  With [aFrom == aTo] or [aTime <= 0], [fadeFilterParameter] and
    [oscillateFilterParameter] return the instance unchanged, faders
    included, for every attribute identifier. *)
Theorem degenerate_fade_is_noop
    (aAttributeId : Z) (aFrom aTo aTime aStartTime : float)
    (this : BiquadResonantFilterInstance) :
  (aFrom == aTo) = true \/ (aTime <=? f_of_int 0) = true ->
  fadeFilterParameter aAttributeId aFrom aTo aTime aStartTime this = this
  /\ oscillateFilterParameter aAttributeId aFrom aTo aTime aStartTime this = this.
Proof.
  intros Hg.
  assert (Hc : (aFrom == aTo) || (aTime <=? f_of_int 0) = true).
  { apply orb_true_iff. exact Hg. }
  unfold fadeFilterParameter, oscillateFilterParameter.
  rewrite Hc. split; reflexivity.
Qed.

(** *** Construction *)

(** C8.  [createInstance] copies the template's type, sample rate and
    resonance, zeroes the history of both channels and runs the coefficient
    calculator before it returns; [mFrequency] keeps what the storage held,
    and the template's frequency has no influence on the instance. *)
Theorem createInstance_effect
    (this : Z) (self : BiquadResonantFilter.BiquadResonantFilter)
    (raw : BiquadResonantFilterInstance) (other_frequency : float) :
  let r := createInstance this self raw in
  mFilterType r = BiquadResonantFilter.mFilterType self
  /\ mSampleRate r = BiquadResonantFilter.mSampleRate self
  /\ mResonance r = BiquadResonantFilter.mResonance self
  /\ history r 0 = zero_history
  /\ history r 1 = zero_history
  /\ mFrequency r = mFrequency raw
  /\ mDirty r = 0%Z
  /\ mActive r =
       (if (BiquadResonantFilter.mFilterType self =? NONE)%Z then 0%Z else 1%Z)
  /\ (forall k : ResonantType,
        BiquadResonantFilter.mFilterType self = type_code k ->
        coefficients r =
          spec_coefficients k (BiquadResonantFilter.mSampleRate self)
            (mFrequency raw) (BiquadResonantFilter.mResonance self))
  /\ createInstance this
       (BiquadResonantFilter.setParams
          (BiquadResonantFilter.mFilterType self)
          (BiquadResonantFilter.mSampleRate self)
          other_frequency
          (BiquadResonantFilter.mResonance self) self) raw = r.
Proof.
  cbv zeta. unfold createInstance, BiquadResonantFilterInstance_ctor.
  assert (Hsame : ctor_assignments raw this
                    (BiquadResonantFilter.setParams
                       (BiquadResonantFilter.mFilterType self)
                       (BiquadResonantFilter.mSampleRate self)
                       other_frequency
                       (BiquadResonantFilter.mResonance self) self)
                  = ctor_assignments raw this self).
  { open_instance raw. destruct self. reflexivity. }
  rewrite Hsame. clear Hsame.
  set (pre := ctor_assignments raw this self).
  assert (Hpre : mFilterType pre = BiquadResonantFilter.mFilterType self
                 /\ mSampleRate pre = BiquadResonantFilter.mSampleRate self
                 /\ mResonance pre = BiquadResonantFilter.mResonance self
                 /\ mFrequency pre = mFrequency raw
                 /\ history pre 0 = zero_history
                 /\ history pre 1 = zero_history).
  { subst pre. open_instance raw. destruct self. vm_compute. auto 10. }
  destruct Hpre as (Ht & Hs & Hr & Hf & H0 & H1).
  destruct (calcBQRParams_parameters pre) as (Et & Es & Ef & Er & Ed).
  destruct (calcBQRParams_frame pre 0) as (E0 & _).
  destruct (calcBQRParams_frame pre 1) as (E1 & _).
  repeat match goal with |- _ /\ _ => split end; try congruence.
  - rewrite calcBQRParams_active, Ht. reflexivity.
  - intros k Hk. rewrite <- Hs, <- Hf, <- Hr.
    apply calcBQRParams_coefficients. congruence.
Qed.

(** *** The loop construct *)

Lemma for_loop_fuel {St : Type} (body : Z -> St -> St) (bound step : Z) :
  (0 < step)%Z ->
  forall (fuel1 fuel2 : nat) (i : Z) (st : St),
    (Z.to_nat (bound - i) <= fuel1)%nat ->
    (Z.to_nat (bound - i) <= fuel2)%nat ->
    for_loop fuel1 i bound step body st = for_loop fuel2 i bound step body st.
Proof.
  intros Hstep fuel1.
  induction fuel1 as [| fuel1 IH]; intros fuel2 i st H1 H2.
  - destruct fuel2 as [| fuel2]; [reflexivity |]. cbn.
    destruct (Z.ltb_spec i bound); [lia | reflexivity].
  - destruct fuel2 as [| fuel2]; cbn;
      destruct (Z.ltb_spec i bound); try reflexivity; try lia.
    apply IH; lia.
Qed.

Lemma for_loop_invariant {St : Type} (P : St -> Prop) (body : Z -> St -> St)
    (bound step : Z) :
  (forall i st, P st -> P (body i st)) ->
  forall (fuel : nat) (i : Z) (st : St),
    P st -> P (for_loop fuel i bound step body st).
Proof.
  intros Hbody fuel.
  induction fuel as [| fuel IH]; intros i st Hst; cbn; [exact Hst |].
  destruct (i <? bound)%Z; [apply IH, Hbody, Hst | exact Hst].
Qed.

Lemma for_loop_related {St : Type} (R : St -> St -> Prop)
    (body : Z -> St -> St) (bound step : Z) :
  (forall i st st', R st st' -> R (body i st) (body i st')) ->
  forall (fuel : nat) (i : Z) (st st' : St),
    R st st' ->
    R (for_loop fuel i bound step body st) (for_loop fuel i bound step body st').
Proof.
  intros Hbody fuel.
  induction fuel as [| fuel IH]; intros i st st' Hst; cbn; [exact Hst |].
  destruct (i <? bound)%Z; [apply IH, Hbody, Hst | exact Hst].
Qed.

(** The outer loop runs its body for channel 0, and for channel 1 when the
    buffer is stereo. *)
Lemma channel_loop_mono {St : Type} (body : Z -> St -> St) (st : St) :
  for_loop (Z.to_nat 1) 0 1 1 body st = body 0%Z st.
Proof. reflexivity. Qed.

Lemma channel_loop_stereo {St : Type} (body : Z -> St -> St) (st : St) :
  for_loop (Z.to_nat 2) 0 2 1 body st = body 1%Z (body 0%Z st).
Proof. reflexivity. Qed.

(** The inner loop ends because its test fails, not for want of fuel: more
    fuel gives the same result. *)
Lemma filter_samples_fuel (aSamples pitch s : Z) (extra : nat)
    (st : BiquadResonantFilterInstance * Buffer) :
  for_loop (Z.to_nat aSamples + extra) 0 aSamples 2 (filter_pair pitch s) st
  = filter_samples aSamples pitch s st.
Proof.
  unfold filter_samples. apply for_loop_fuel; lia.
Qed.

(** *** Histories and settings *)

Lemma with_history_id (this : BiquadResonantFilterInstance) (s : Z) :
  with_history s (history this s) this = this.
Proof.
  open_instance this. unfold with_history, history, aget, aset; cbn.
  destruct (s =? 0)%Z; reflexivity.
Qed.

Lemma with_history_twice (this : BiquadResonantFilterInstance) (s : Z)
    (h h' : History) :
  with_history s h' (with_history s h this) = with_history s h' this.
Proof.
  open_instance this. unfold with_history, aset; cbn.
  destruct (s =? 0)%Z; reflexivity.
Qed.

Lemma history_with_history (this : BiquadResonantFilterInstance) (s : Z)
    (h : History) :
  history (with_history s h this) s = h.
Proof.
  open_instance this. destruct h. unfold with_history, history, aget, aset; cbn.
  destruct (s =? 0)%Z; reflexivity.
Qed.

Lemma history_with_history_other (this : BiquadResonantFilterInstance)
    (s s' : Z) (h : History) :
  other_channel s s' ->
  history (with_history s h this) s' = history this s'.
Proof.
  unfold other_channel. intros Hs.
  open_instance this. unfold with_history, history, aget, aset; cbn.
  destruct (s =? 0)%Z, (s' =? 0)%Z; try reflexivity; congruence.
Qed.

Lemma settings_with_history (this : BiquadResonantFilterInstance) (s : Z)
    (h : History) :
  settings (with_history s h this) = settings this.
Proof. open_instance this. reflexivity. Qed.

Lemma coefficients_with_history (this : BiquadResonantFilterInstance) (s : Z)
    (h : History) :
  coefficients (with_history s h this) = coefficients this.
Proof. open_instance this. reflexivity. Qed.

Lemma settings_members (a b : BiquadResonantFilterInstance) :
  settings a = settings b ->
  mActive a = mActive b
  /\ coefficients a = coefficients b
  /\ mDirty a = mDirty b
  /\ mFilterType a = mFilterType b
  /\ mSampleRate a = mSampleRate b
  /\ mFrequency a = mFrequency b
  /\ mResonance a = mResonance b
  /\ mResonanceFader a = mResonanceFader b
  /\ mFrequencyFader a = mFrequencyFader b
  /\ mSampleRateFader a = mSampleRateFader b
  /\ mParent a = mParent b.
Proof.
  unfold settings. intros Hs. repeat split; congruence.
Qed.

Lemma flags_with_history (this : BiquadResonantFilterInstance) (s : Z)
    (h : History) :
  mActive (with_history s h this) = mActive this
  /\ mDirty (with_history s h this) = mDirty this.
Proof. open_instance this. split; reflexivity. Qed.

(** *** One pass of the inner loop is two steps of the recurrence *)

Lemma filter_pair_direct_form (pitch s i : Z)
    (this : BiquadResonantFilterInstance) (b : Buffer) :
  (0 < pitch)%Z ->
  let c := coefficients this in
  let k0 := (i * pitch + s)%Z in
  let k1 := ((i + 1) * pitch + s)%Z in
  let s0 := direct_form_step c (history this s) (b k0) in
  let s1 := direct_form_step c (snd s0) (b k1) in
  filter_pair pitch s i (this, b)
  = (with_history s (snd s1) this, store (store b k0 (fst s0)) k1 (fst s1)).
Proof.
  intros Hp. cbv zeta.
  assert (Hst : forall v,
             store b (i * pitch + s)%Z v ((i + 1) * pitch + s)%Z
             = b ((i + 1) * pitch + s)%Z).
  { intros v. unfold store.
    destruct (Z.eqb_spec ((i + 1) * pitch + s) (i * pitch + s)); [lia |].
    reflexivity. }
  open_instance this. run_model.
  destruct (s =? 0)%Z; rewrite !Hst; reflexivity.
Qed.

Lemma direct_form_cons (c : Coefficients) (h : History) (x : float)
    (xs : list float) :
  direct_form c h (x :: xs)
  = (fst (direct_form_step c h x)
       :: fst (direct_form c (snd (direct_form_step c h x)) xs),
     snd (direct_form c (snd (direct_form_step c h x)) xs)).
Proof.
  cbn. destruct (direct_form c _ xs). reflexivity.
Qed.

Lemma direct_form_length (c : Coefficients) (xs : list float) :
  forall h, length (fst (direct_form c h xs)) = length xs.
Proof.
  induction xs as [| x xs IH]; intros h; [reflexivity |].
  rewrite direct_form_cons. cbn [fst length]. now rewrite IH.
Qed.

(** *** Reading and writing one channel of the buffer *)

Lemma samples_from_ext (b b' : Buffer) (pitch s : Z) (n : nat) :
  forall i,
    (forall k, (i <= k)%Z -> b' (k * pitch + s)%Z = b (k * pitch + s)%Z) ->
    samples_from b' pitch s i n = samples_from b pitch s i n.
Proof.
  induction n as [| n IH]; intros i Hb; [reflexivity |].
  cbn. rewrite Hb by lia. f_equal. apply IH. intros k Hk. apply Hb. lia.
Qed.

Lemma channel_samples_from (b : Buffer) (pitch s : Z) (n : nat) :
  channel_samples b pitch s n = samples_from b pitch s 0 n.
Proof.
  unfold channel_samples.
  assert (G : forall (m : nat) (i : nat),
             map (fun k => b (Z.of_nat k * pitch + s)%Z) (seq i m)
             = samples_from b pitch s (Z.of_nat i) m).
  { induction m as [| m IH]; intros i; [reflexivity |].
    cbn [seq map samples_from]. f_equal.
    rewrite IH. f_equal. lia. }
  apply (G n 0%nat).
Qed.

Lemma write_channel_other (pitch s : Z) (ys : list float) :
  forall (b : Buffer) (i j : Z),
    (forall k, (i <= k < i + Z.of_nat (length ys))%Z -> j <> (k * pitch + s)%Z) ->
    write_channel b pitch s i ys j = b j.
Proof.
  induction ys as [| y ys IH]; intros b i j Hj; [reflexivity |].
  cbn [write_channel]. cbn [length] in Hj.
  rewrite IH by (intros k Hk; apply Hj; lia).
  unfold store. destruct (Z.eqb_spec j (i * pitch + s)); [| reflexivity].
  exfalso. apply (Hj i); [lia | assumption].
Qed.

Lemma samples_from_write_channel (pitch s : Z) (ys : list float) :
  (0 < pitch)%Z ->
  forall (b : Buffer) (i : Z),
    samples_from (write_channel b pitch s i ys) pitch s i (length ys) = ys.
Proof.
  intros Hp. induction ys as [| y ys IH]; intros b i; [reflexivity |].
  cbn [length samples_from write_channel]. f_equal.
  - rewrite write_channel_other by (intros k Hk; nia).
    unfold store. now rewrite Z.eqb_refl.
  - apply IH.
Qed.

(** *** The inner loop is the recurrence run over the channel *)

Lemma filter_pairs_direct_form (pitch s : Z) :
  (0 < pitch)%Z ->
  forall (m fuel : nat) (i : Z) (this : BiquadResonantFilterInstance)
         (b : Buffer),
    (m <= fuel)%nat ->
    let r := for_loop fuel i (i + 2 * Z.of_nat m) 2 (filter_pair pitch s)
                      (this, b) in
    let d := direct_form (coefficients this) (history this s)
                         (samples_from b pitch s i (2 * m)) in
    fst r = with_history s (snd d) this
    /\ forall j, snd r j = write_channel b pitch s i (fst d) j.
Proof.
  intros Hp m.
  induction m as [| m IH]; intros fuel i this b Hfuel; cbv zeta.
  - replace (i + 2 * Z.of_nat 0)%Z with i by lia.
    assert (E : for_loop fuel i i 2 (filter_pair pitch s) (this, b) = (this, b)).
    { destruct fuel; cbn; [| rewrite Z.ltb_irrefl]; reflexivity. }
    rewrite E. cbn. split; [symmetry; apply with_history_id | reflexivity].
  - destruct fuel as [| fuel]; [lia |].
    cbn [for_loop].
    destruct (Z.ltb_spec i (i + 2 * Z.of_nat (S m))); [| lia].
    rewrite filter_pair_direct_form by assumption.
    replace (i + 2 * Z.of_nat (S m))%Z with ((i + 2) + 2 * Z.of_nat m)%Z by lia.
    replace (2 * S m)%nat with (S (S (2 * m))) by lia.
    cbn [samples_from].
    rewrite 2 direct_form_cons. cbn [fst snd].
    set (c := coefficients this).
    set (s0 := direct_form_step c (history this s) (b (i * pitch + s)%Z)).
    set (s1 := direct_form_step c (snd s0) (b ((i + 1) * pitch + s)%Z)).
    set (b1 := store (store b (i * pitch + s)%Z (fst s0))
                     ((i + 1) * pitch + s)%Z (fst s1)).
    destruct (IH fuel (i + 2)%Z (with_history s (snd s1) this) b1) as [Ht Hb];
      [lia |].
    rewrite coefficients_with_history, history_with_history in Ht, Hb.
    fold c in Ht, Hb.
    replace (i + 1 + 1)%Z with (i + 2)%Z by lia.
    assert (Ein : samples_from b1 pitch s (i + 2) (2 * m)
                  = samples_from b pitch s (i + 2) (2 * m)).
    { apply samples_from_ext. intros k Hk. subst b1. unfold store.
      destruct (Z.eqb_spec (k * pitch + s) ((i + 1) * pitch + s)); [nia |].
      destruct (Z.eqb_spec (k * pitch + s) (i * pitch + s)); [nia |].
      reflexivity. }
    rewrite Ein in Ht, Hb.
    split.
    + rewrite Ht. apply with_history_twice.
    + intros j. rewrite Hb. cbn [write_channel].
      replace (i + 1 + 1)%Z with (i + 2)%Z by lia. reflexivity.
Qed.

(** C2.  For an even sample count and a channel of the buffer, the inner loop
    of [filter] writes to that channel the outputs of the one-sample-at-a-time
    recurrence run over the channel's samples from the stored history, and
    leaves in [mX1, mX2, mY1, mY2] of that channel the history the recurrence
    ends with; it changes nothing else in the instance, and no other element
    of the buffer. *)
Theorem filter_samples_is_direct_form
    (this : BiquadResonantFilterInstance) (aBuffer : Buffer)
    (aSamples aStereo s : Z) :
  let pitch := if (aStereo =? 0)%Z then 1%Z else 2%Z in
  Z.even aSamples = true ->
  (0 <= s < pitch)%Z ->
  let n := Z.to_nat aSamples in
  let r := filter_samples aSamples pitch s (this, aBuffer) in
  let d := direct_form (coefficients this) (history this s)
                       (channel_samples aBuffer pitch s n) in
  channel_samples (snd r) pitch s n = fst d
  /\ history (fst r) s = snd d
  /\ fst r = with_history s (snd d) this
  /\ forall j,
       (forall k, (0 <= k < aSamples)%Z -> j <> (k * pitch + s)%Z) ->
       snd r j = aBuffer j.
Proof.
  intros pitch Heven Hs n r d.
  assert (Hp : (0 < pitch)%Z) by (subst pitch; destruct (aStereo =? 0)%Z; lia).
  set (m := Z.to_nat (aSamples / 2)).
  assert (Hn : n = (2 * m)%nat).
  { subst n m. apply Z.even_spec in Heven. destruct Heven as [q ->].
    rewrite Z.mul_comm, Z.div_mul by lia. lia. }
  assert (Hr : r = for_loop (Z.to_nat aSamples) 0 (0 + 2 * Z.of_nat m) 2
                            (filter_pair pitch s) (this, aBuffer)).
  { subst r. unfold filter_samples.
    destruct (Z.le_gt_cases 0 aSamples) as [Hpos | Hneg].
    - replace (0 + 2 * Z.of_nat m)%Z with aSamples; [reflexivity |].
      subst m. apply Z.even_spec in Heven. destruct Heven as [q ->].
      rewrite (Z.mul_comm 2 q), Z.div_mul by lia. lia.
    - replace (Z.to_nat aSamples) with 0%nat by lia. reflexivity. }
  destruct (filter_pairs_direct_form pitch s Hp m (Z.to_nat aSamples) 0
              this aBuffer) as [Ht Hb]; [fold n; lia |].
  rewrite <- Hr, <- Hn, <- channel_samples_from in Ht, Hb. fold d in Ht, Hb.
  assert (Hlen : length (fst d) = n).
  { subst d. rewrite direct_form_length. unfold channel_samples.
    now rewrite length_map, length_seq. }
  repeat match goal with |- _ /\ _ => split end.
  - rewrite channel_samples_from.
    rewrite (samples_from_ext (write_channel aBuffer pitch s 0 (fst d)))
      by (intros k _; apply Hb).
    rewrite <- Hlen. now apply samples_from_write_channel.
  - rewrite Ht. apply history_with_history.
  - exact Ht.
  - intros j Hj. rewrite Hb. apply write_channel_other.
    intros k Hk. apply Hj. rewrite Hlen in Hk. subst n. lia.
Qed.

(** *** What the loops leave alone *)

Lemma filter_pair_frame (pitch s i : Z) (this : BiquadResonantFilterInstance)
    (b : Buffer) :
  settings (fst (filter_pair pitch s i (this, b))) = settings this
  /\ forall s', other_channel s s' ->
       history (fst (filter_pair pitch s i (this, b))) s' = history this s'.
Proof.
  open_instance this. split; [run_model; reflexivity |].
  unfold other_channel. intros s' Hs'. run_model.
  destruct (s =? 0)%Z, (s' =? 0)%Z; try reflexivity; congruence.
Qed.

Lemma filter_samples_frame (aSamples pitch s : Z)
    (this : BiquadResonantFilterInstance) (b : Buffer) :
  settings (fst (filter_samples aSamples pitch s (this, b))) = settings this
  /\ forall s', other_channel s s' ->
       history (fst (filter_samples aSamples pitch s (this, b))) s'
       = history this s'.
Proof.
  unfold filter_samples.
  apply (for_loop_invariant
           (fun st => settings (fst st) = settings this
                      /\ forall s', other_channel s s' ->
                           history (fst st) s' = history this s'));
    [| split; reflexivity].
  intros i [t b'] [Hset Hoth]. cbn [fst] in Hset, Hoth.
  destruct (filter_pair_frame pitch s i t b') as [Fs Fo].
  split; [rewrite Fs; exact Hset |].
  intros s' Hs'. rewrite Fo by assumption. now apply Hoth.
Qed.

Lemma filter_bias_biased (s : Z) (this : BiquadResonantFilterInstance) :
  biased s this (filter_bias s this).
Proof.
  open_instance this. unfold biased, other_channel. split; [| split].
  - unfold filter_bias, history, aget, aset, bias. cbn.
    destruct (s =? 0)%Z; reflexivity.
  - intros s' Hs'. unfold filter_bias, history, aget, aset. cbn.
    destruct (s =? 0)%Z, (s' =? 0)%Z; try reflexivity; congruence.
  - reflexivity.
Qed.

Lemma filter_channel_eq (aSamples pitch s : Z)
    (st : BiquadResonantFilterInstance * Buffer) :
  filter_channel aSamples pitch s st
  = (filter_bias s (fst (filter_samples aSamples pitch s st)),
     snd (filter_samples aSamples pitch s st)).
Proof.
  unfold filter_channel. destruct (filter_samples aSamples pitch s st).
  reflexivity.
Qed.

Lemma filter_channel_frame (aSamples pitch s : Z)
    (this : BiquadResonantFilterInstance) (b : Buffer) :
  settings (fst (filter_channel aSamples pitch s (this, b))) = settings this
  /\ forall s', other_channel s s' ->
       history (fst (filter_channel aSamples pitch s (this, b))) s'
       = history this s'.
Proof.
  rewrite filter_channel_eq. cbn [fst].
  destruct (filter_samples_frame aSamples pitch s this b) as [Fs Fo].
  destruct (filter_bias_biased s
              (fst (filter_samples aSamples pitch s (this, b))))
    as (_ & Bo & Bs).
  split; [congruence |].
  intros s' Hs'. rewrite Bo by assumption. now apply Fo.
Qed.

Lemma filter_active (this : BiquadResonantFilterInstance) (aBuffer : Buffer)
    (aSamples aStereo : Z) (aSamplerate aTime : float) :
  mActive this <> 0%Z ->
  filter this aBuffer aSamples aStereo aSamplerate aTime
  = if (aStereo =? 0)%Z
    then filter_channel aSamples 1 0 (filter_prepare aTime this, aBuffer)
    else filter_channel aSamples 2 1
           (filter_channel aSamples 2 0 (filter_prepare aTime this, aBuffer)).
Proof.
  intros Ha. unfold filter.
  destruct (Z.eqb_spec (mActive this) 0); [contradiction |].
  destruct (aStereo =? 0)%Z; reflexivity.
Qed.

(** The channel loops change no member outside the history arrays. *)
Lemma filter_settings (this : BiquadResonantFilterInstance) (aBuffer : Buffer)
    (aSamples aStereo : Z) (aSamplerate aTime : float) :
  mActive this <> 0%Z ->
  settings (fst (filter this aBuffer aSamples aStereo aSamplerate aTime))
  = settings (filter_prepare aTime this).
Proof.
  intros Ha. rewrite filter_active by assumption.
  destruct (aStereo =? 0)%Z.
  - apply filter_channel_frame.
  - destruct (filter_channel aSamples 2 0 (filter_prepare aTime this, aBuffer))
      as [t0 b0] eqn:E0.
    destruct (filter_channel_frame aSamples 2 1 t0 b0) as [F1 _].
    destruct (filter_channel_frame aSamples 2 0 (filter_prepare aTime this)
                aBuffer) as [F0 _].
    rewrite E0 in F0. cbn [fst] in F0. congruence.
Qed.

(** C9.  On an active instance, each processed channel (channel 0, and
    channel 1 when the buffer is stereo) ends with the constant 1.0e-26 added
    to its [mY1] after its sample loop, and nothing else of the instance or
    of the buffer changes between the end of that loop and the next channel
    or the return; the pass over channel 1 leaves the history of channel 0 as
    the bias left it. *)
Theorem filter_bias_after_each_channel
    (this : BiquadResonantFilterInstance) (aBuffer : Buffer)
    (aSamples aStereo : Z) (aSamplerate aTime : float) :
  mActive this <> 0%Z ->
  let pitch := if (aStereo =? 0)%Z then 1%Z else 2%Z in
  let result := filter this aBuffer aSamples aStereo aSamplerate aTime in
  let l0 := filter_samples aSamples pitch 0 (filter_prepare aTime this, aBuffer) in
  exists c0 : BiquadResonantFilterInstance,
    biased 0 (fst l0) c0
    /\ if (aStereo =? 0)%Z
       then result = (c0, snd l0)
       else
         let l1 := filter_samples aSamples pitch 1 (c0, snd l0) in
         exists c1 : BiquadResonantFilterInstance,
           biased 1 (fst l1) c1 /\ result = (c1, snd l1)
           /\ history c1 0 = history c0 0.
Proof.
  intros Ha pitch result l0.
  exists (filter_bias 0 (fst l0)). split; [apply filter_bias_biased |].
  subst result. rewrite filter_active by assumption.
  subst l0 pitch. destruct (aStereo =? 0)%Z.
  - apply filter_channel_eq.
  - cbv zeta.
    exists (filter_bias 1
              (fst (filter_samples aSamples 2 1
                      (filter_bias 0
                         (fst (filter_samples aSamples 2 0
                                 (filter_prepare aTime this, aBuffer))),
                       snd (filter_samples aSamples 2 0
                              (filter_prepare aTime this, aBuffer)))))).
    split; [apply filter_bias_biased |].
    split; [rewrite (filter_channel_eq aSamples 2 0); apply filter_channel_eq |].
    match goal with
    | |- history (filter_bias 1 (fst (filter_samples _ _ _ (?c, ?b)))) 0 = _ =>
        destruct (filter_channel_frame aSamples 2 1 c b) as [_ Fo];
        rewrite filter_channel_eq in Fo; cbn [fst] in Fo; apply Fo
    end.
    unfold other_channel. cbn. discriminate.
Qed.

(** *** The fader tests and the refresh of the coefficients *)

Ltac run_faders aTime rf ff sf :=
  let G1 := fresh "G" in
  let G2 := fresh "G" in
  let G3 := fresh "G" in
  let T1 := fresh "T" in
  let T2 := fresh "T" in
  let T3 := fresh "T" in
  let ra := fresh "ra" in
  let fa := fresh "fa" in
  let sa := fresh "sa" in
  let rd := fresh "rd" in
  let fd := fresh "fd" in
  let sd := fresh "sd" in
  destruct rf as [ra rd], ff as [fa fd], sf as [sa sd];
  destruct (Fader_get aTime (Fader.mk ra rd)) eqn:G1;
  destruct (Fader_get aTime (Fader.mk fa fd)) eqn:G2;
  destruct (Fader_get aTime (Fader.mk sa sd)) eqn:G3;
  destruct (0 <? ra)%Z eqn:T1;
  destruct (0 <? fa)%Z eqn:T2;
  destruct (0 <? sa)%Z eqn:T3;
  do 4 (run_model; rewrite ?G1, ?G2, ?G3, ?T1, ?T2, ?T3);
  run_model.

Lemma filter_faders_frame (aTime : float) (this : BiquadResonantFilterInstance) :
  (forall s, history (filter_faders aTime this) s = history this s)
  /\ mFilterType (filter_faders aTime this) = mFilterType this
  /\ mActive (filter_faders aTime this) = mActive this
  /\ coefficients (filter_faders aTime this) = coefficients this
  /\ mParent (filter_faders aTime this) = mParent this.
Proof.
  open_instance this.
  run_faders aTime rf ff sf; auto.
Qed.

Lemma filter_faders_idle (aTime : float) (this : BiquadResonantFilterInstance) :
  fader_active (mFrequencyFader this) = false ->
  fader_active (mResonanceFader this) = false ->
  fader_active (mSampleRateFader this) = false ->
  filter_faders aTime this = this.
Proof.
  unfold fader_active, filter_faders. intros Hf Hr Hs.
  rewrite Hf, Hr, Hs. reflexivity.
Qed.

Lemma filter_faders_values (aTime : float) (this : BiquadResonantFilterInstance) :
  let u := filter_faders aTime this in
  mFrequency u = (if fader_active (mFrequencyFader this)
                  then fst (Fader_get aTime (mFrequencyFader this))
                  else mFrequency this)
  /\ mResonance u = (if fader_active (mResonanceFader this)
                     then fst (Fader_get aTime (mResonanceFader this))
                     else mResonance this)
  /\ mSampleRate u = (if fader_active (mSampleRateFader this)
                      then fst (Fader_get aTime (mSampleRateFader this))
                      else mSampleRate this)
  /\ mDirty u = (if fader_active (mFrequencyFader this)
                    || fader_active (mResonanceFader this)
                    || fader_active (mSampleRateFader this)
                 then 1%Z else mDirty this).
Proof.
  open_instance this.
  run_faders aTime rf ff sf; cbn [orb]; auto.
Qed.

Lemma filter_prepare_frame (aTime : float) (this : BiquadResonantFilterInstance) :
  (forall s, history (filter_prepare aTime this) s = history this s)
  /\ mFilterType (filter_prepare aTime this) = mFilterType this
  /\ mParent (filter_prepare aTime this) = mParent this
  /\ mDirty (filter_prepare aTime this) = 0%Z.
Proof.
  unfold filter_prepare.
  destruct (filter_faders_frame aTime this) as (Fh & Ft & _ & _ & Fp).
  destruct (Z.eqb_spec (mDirty (filter_faders aTime this)) 0) as [Hd | Hd].
  - auto.
  - destruct (calcBQRParams_parameters (filter_faders aTime this))
      as (Ct & _ & _ & _ & Cd).
    repeat split; try congruence.
    + intros s.
      destruct (calcBQRParams_frame (filter_faders aTime this) s) as (Ch & _).
      rewrite Ch. apply Fh.
    + destruct (calcBQRParams_frame (filter_faders aTime this) 0)
        as (_ & _ & _ & _ & Cp). congruence.
Qed.

(** *** The history of a channel that is not processed is not read *)

Lemma calcBQRParams_with_history (s : Z) (h : History)
    (this : BiquadResonantFilterInstance) :
  calcBQRParams (with_history s h this) = with_history s h (calcBQRParams this).
Proof.
  open_instance this. unfold calcBQRParams, with_history. cbn.
  destruct (ty =? NONE)%Z; [reflexivity |].
  destruct (ty =? LOWPASS)%Z; [reflexivity |].
  destruct (ty =? HIGHPASS)%Z; [reflexivity |].
  destruct (ty =? BANDPASS)%Z; reflexivity.
Qed.

Lemma filter_faders_with_history (aTime : float) (s : Z) (h : History)
    (this : BiquadResonantFilterInstance) :
  filter_faders aTime (with_history s h this)
  = with_history s h (filter_faders aTime this).
Proof.
  open_instance this.
  run_faders aTime rf ff sf; reflexivity.
Qed.

Lemma filter_prepare_with_history (aTime : float) (s : Z) (h : History)
    (this : BiquadResonantFilterInstance) :
  filter_prepare aTime (with_history s h this)
  = with_history s h (filter_prepare aTime this).
Proof.
  unfold filter_prepare. rewrite filter_faders_with_history.
  rewrite (proj2 (flags_with_history (filter_faders aTime this) s h)).
  destruct (mDirty (filter_faders aTime this) =? 0)%Z; [reflexivity |].
  apply calcBQRParams_with_history.
Qed.

Lemma filter_pair_with_history (pitch i : Z) (h : History)
    (this : BiquadResonantFilterInstance) (b : Buffer) :
  filter_pair pitch 0 i (with_history 1 h this, b)
  = (with_history 1 h (fst (filter_pair pitch 0 i (this, b))),
     snd (filter_pair pitch 0 i (this, b))).
Proof.
  open_instance this. destruct h. reflexivity.
Qed.

Lemma filter_channel_with_history (aSamples pitch : Z) (h : History)
    (this : BiquadResonantFilterInstance) (b : Buffer) :
  filter_channel aSamples pitch 0 (with_history 1 h this, b)
  = (with_history 1 h (fst (filter_channel aSamples pitch 0 (this, b))),
     snd (filter_channel aSamples pitch 0 (this, b))).
Proof.
  rewrite 2 filter_channel_eq. cbn [fst snd].
  assert (R : fst (filter_samples aSamples pitch 0 (with_history 1 h this, b))
              = with_history 1 h (fst (filter_samples aSamples pitch 0 (this, b)))
              /\ snd (filter_samples aSamples pitch 0 (with_history 1 h this, b))
                 = snd (filter_samples aSamples pitch 0 (this, b))).
  { unfold filter_samples.
    apply (for_loop_related
             (fun st' st => fst st' = with_history 1 h (fst st)
                            /\ snd st' = snd st));
      [| split; reflexivity].
    intros i [t' b'] [t0 b0] [Et Eb]. cbn [fst snd] in Et, Eb. subst t' b'.
    rewrite filter_pair_with_history. split; reflexivity. }
  destruct R as [Rt Rb]. rewrite Rt, Rb. f_equal.
  destruct (fst (filter_samples aSamples pitch 0 (this, b))) as
    [act [y10 y11] [y20 y21] [x10 x11] [x20 x21]
     ca0 ca1 ca2 cb1 cb2 dirty ty sr fr re rf ff sf par].
  destruct h. reflexivity.
Qed.

(** C10.  A mono call of [filter] leaves [mX1[1], mX2[1], mY1[1], mY2[1]] as
    they were and does not depend on them: with another channel-1 history it
    produces the same buffer and the same instance but for that history.
    No call of [filter] changes [mFilterType]. *)
Theorem filter_mono_keeps_channel_1_and_type
    (this : BiquadResonantFilterInstance) (aBuffer : Buffer)
    (aSamples aStereo : Z) (aSamplerate aTime : float) :
  history (fst (filter this aBuffer aSamples 0 aSamplerate aTime)) 1
  = history this 1
  /\ (forall h : History,
        filter (with_history 1 h this) aBuffer aSamples 0 aSamplerate aTime
        = (with_history 1 h
             (fst (filter this aBuffer aSamples 0 aSamplerate aTime)),
           snd (filter this aBuffer aSamples 0 aSamplerate aTime)))
  /\ mFilterType (fst (filter this aBuffer aSamples aStereo aSamplerate aTime))
     = mFilterType this.
Proof.
  destruct (filter_prepare_frame aTime this) as (Ph & Pt & _ & _).
  destruct (Z.eq_dec (mActive this) 0) as [Hz | Hnz].
  - assert (E : forall st h,
               filter (with_history 1 h this) aBuffer aSamples st aSamplerate
                      aTime = (with_history 1 h this, aBuffer)).
    { intros st h. unfold filter.
      rewrite (proj1 (flags_with_history this 1 h)), Hz. reflexivity. }
    assert (E0 : forall st,
               filter this aBuffer aSamples st aSamplerate aTime
               = (this, aBuffer)).
    { intros st. unfold filter. rewrite Hz. reflexivity. }
    rewrite !E0. cbn [fst snd]. repeat split; try reflexivity.
    intros h. apply E.
  - split; [| split].
    + rewrite filter_active by assumption. cbn [Z.eqb].
      destruct (filter_channel_frame aSamples 1 0 (filter_prepare aTime this)
                  aBuffer) as [_ Fo].
      rewrite Fo by (unfold other_channel; cbn; discriminate). apply Ph.
    + intros h.
      rewrite (filter_active this) by assumption.
      rewrite (filter_active (with_history 1 h this))
        by (rewrite (proj1 (flags_with_history this 1 h)); exact Hnz).
      cbn [Z.eqb]. rewrite filter_prepare_with_history.
      apply filter_channel_with_history.
    + pose proof (filter_settings this aBuffer aSamples aStereo aSamplerate
                    aTime Hnz) as Hs.
      unfold settings in Hs. congruence.
Qed.

Lemma filter_prepare_parameters (aTime : float)
    (this : BiquadResonantFilterInstance) :
  let u := filter_faders aTime this in
  let p := filter_prepare aTime this in
  mFrequency p = mFrequency u
  /\ mResonance p = mResonance u
  /\ mSampleRate p = mSampleRate u
  /\ mResonanceFader p = mResonanceFader u
  /\ mFrequencyFader p = mFrequencyFader u
  /\ mSampleRateFader p = mSampleRateFader u
  /\ coefficients p = (if (mDirty u =? 0)%Z then coefficients this
                       else coefficients (calcBQRParams u)).
Proof.
  cbv zeta. unfold filter_prepare.
  destruct (filter_faders_frame aTime this) as (_ & _ & _ & Fc & _).
  destruct (mDirty (filter_faders aTime this) =? 0)%Z; [auto 10 |].
  destruct (calcBQRParams_parameters (filter_faders aTime this))
    as (_ & Cs & Cf & Cr & _).
  destruct (calcBQRParams_frame (filter_faders aTime this) 0)
    as (_ & Frf & Fff & Fsf & _).
  auto 10.
Qed.

Lemma filter_coefficients (this : BiquadResonantFilterInstance)
    (aBuffer : Buffer) (aSamples aStereo : Z) (aSamplerate aTime : float) :
  filter_prepare aTime this = this ->
  coefficients (fst (filter this aBuffer aSamples aStereo aSamplerate aTime))
  = coefficients this.
Proof.
  intros Hp.
  destruct (Z.eq_dec (mActive this) 0) as [Hz | Hnz].
  - unfold filter. rewrite Hz. reflexivity.
  - pose proof (filter_settings this aBuffer aSamples aStereo aSamplerate
                  aTime Hnz) as Hs.
    rewrite Hp in Hs. unfold settings in Hs. congruence.
Qed.

(** C4.  A call of [filter] on an active instance stores, for each fader that
    is active, the fader's value at [aTime] in the parameter it drives and
    sets [mDirty]; the coefficients the call ends with are recomputed from the
    updated parameters if [mDirty] is then set and are the stored ones if it
    is not; [mDirty] is clear when the call returns.  With no fader active,
    the coefficients the sample loops run with are those of the returned
    instance, and a further call, whatever its arguments, changes nothing
    before its sample loops and ends with the same coefficients. *)
Theorem filter_updates_parameters
    (this : BiquadResonantFilterInstance) (aBuffer : Buffer)
    (aSamples aStereo : Z) (aSamplerate aTime : float) :
  mActive this <> 0%Z ->
  let r := fst (filter this aBuffer aSamples aStereo aSamplerate aTime) in
  let u := filter_faders aTime this in
  (fader_active (mFrequencyFader this) = true ->
     mFrequency r = fst (Fader_get aTime (mFrequencyFader this))
     /\ mDirty u = 1%Z)
  /\ (fader_active (mSampleRateFader this) = true ->
     mSampleRate r = fst (Fader_get aTime (mSampleRateFader this))
     /\ mDirty u = 1%Z)
  /\ (fader_active (mResonanceFader this) = true ->
     mResonance r = fst (Fader_get aTime (mResonanceFader this))
     /\ mDirty u = 1%Z)
  /\ coefficients r = (if (mDirty u =? 0)%Z then coefficients this
                       else coefficients (calcBQRParams u))
  /\ mDirty r = 0%Z
  /\ (fader_active (mFrequencyFader this) = false ->
      fader_active (mSampleRateFader this) = false ->
      fader_active (mResonanceFader this) = false ->
      coefficients (filter_prepare aTime this) = coefficients r
      /\ forall (aBuffer' : Buffer) (aSamples' aStereo' : Z)
                (aSamplerate' aTime' : float),
           filter_prepare aTime' r = r
           /\ coefficients
                (fst (filter r aBuffer' aSamples' aStereo' aSamplerate' aTime'))
              = coefficients r).
Proof.
  intros Ha r u.
  pose proof (filter_settings this aBuffer aSamples aStereo aSamplerate aTime Ha)
    as Hs.
  fold r in Hs.
  apply settings_members in Hs.
  destruct Hs as (Hact & Hco & Hdi & Hty & Hsr & Hfr & Hre & Hrf & Hff & Hsf
                  & Hpa).
  destruct (filter_prepare_parameters aTime this)
    as (Pf & Pr & Ps & Prf & Pff & Psf & Pc).
  destruct (filter_faders_values aTime this) as (Vf & Vr & Vs & Vd).
  destruct (filter_prepare_frame aTime this) as (_ & _ & _ & Pd).
  fold u in Pf, Pr, Ps, Prf, Pff, Psf, Pc, Vf, Vr, Vs, Vd.
  repeat match goal with |- _ /\ _ => split end.
  - intros Hf. rewrite Hf in Vf, Vd. cbn in Vd. split; congruence.
  - intros Hf. rewrite Hf in Vs, Vd. rewrite !orb_true_r in Vd.
    split; congruence.
  - intros Hf. rewrite Hf in Vr, Vd. rewrite orb_true_r in Vd. cbn in Vd.
    split; congruence.
  - congruence.
  - congruence.
  - intros If Is Ir.
    assert (Eu : u = this) by (subst u; now apply filter_faders_idle).
    rewrite Eu in *.
    split; [congruence |].
    assert (Hprep : forall t, filter_prepare t r = r).
    { intros t. unfold filter_prepare.
      rewrite filter_faders_idle by congruence.
      rewrite Hdi, Pd. reflexivity. }
    intros aBuffer' aSamples' aStereo' aSamplerate' aTime'.
    split; [apply Hprep | apply filter_coefficients, Hprep].
Qed.

(** *** The invariant *)

Lemma coefficient_invariant_settings (a b : BiquadResonantFilterInstance) :
  settings a = settings b ->
  coefficient_invariant b -> coefficient_invariant a.
Proof.
  intros Hs Hinv.
  apply settings_members in Hs.
  destruct Hs as (Hact & Hco & Hdi & Hty & Hsr & Hfr & Hre & Hrf & Hff & Hsf
                  & Hpa).
  unfold coefficient_invariant, consistent in *.
  rewrite Hco, Hdi, Hty, Hsr, Hfr, Hre. exact Hinv.
Qed.

Lemma createInstance_invariant (this : Z)
    (self : BiquadResonantFilter.BiquadResonantFilter)
    (raw : BiquadResonantFilterInstance) :
  coefficient_invariant (createInstance this self raw).
Proof.
  intros _. unfold createInstance, BiquadResonantFilterInstance_ctor.
  apply calcBQRParams_consistent.
Qed.

Lemma setFilterParameter_invariant (aAttributeId : Z) (aValue : float)
    (this : BiquadResonantFilterInstance) :
  coefficient_invariant this ->
  coefficient_invariant (setFilterParameter aAttributeId aValue this).
Proof.
  intros Hinv. open_instance this. unfold setFilterParameter.
  destruct (aAttributeId =? FREQUENCY)%Z; [intros Hd; discriminate Hd |].
  destruct (aAttributeId =? SAMPLERATE)%Z; [intros Hd; discriminate Hd |].
  destruct (aAttributeId =? RESONANCE)%Z; [intros Hd; discriminate Hd |].
  exact Hinv.
Qed.

Lemma fadeFilterParameter_invariant (aAttributeId : Z)
    (aFrom aTo aTime aStartTime : float) (this : BiquadResonantFilterInstance) :
  coefficient_invariant this ->
  coefficient_invariant
    (fadeFilterParameter aAttributeId aFrom aTo aTime aStartTime this).
Proof.
  intros Hinv. open_instance this. unfold fadeFilterParameter.
  destruct ((aFrom == aTo) || (aTime <=? f_of_int 0)); [exact Hinv |].
  destruct (aAttributeId =? FREQUENCY)%Z; [exact Hinv |].
  destruct (aAttributeId =? SAMPLERATE)%Z; [exact Hinv |].
  destruct (aAttributeId =? RESONANCE)%Z; exact Hinv.
Qed.

Lemma oscillateFilterParameter_invariant (aAttributeId : Z)
    (aFrom aTo aTime aStartTime : float) (this : BiquadResonantFilterInstance) :
  coefficient_invariant this ->
  coefficient_invariant
    (oscillateFilterParameter aAttributeId aFrom aTo aTime aStartTime this).
Proof.
  intros Hinv. open_instance this. unfold oscillateFilterParameter.
  destruct ((aFrom == aTo) || (aTime <=? f_of_int 0)); [exact Hinv |].
  destruct (aAttributeId =? FREQUENCY)%Z; [exact Hinv |].
  destruct (aAttributeId =? SAMPLERATE)%Z; [exact Hinv |].
  destruct (aAttributeId =? RESONANCE)%Z; exact Hinv.
Qed.

Lemma filter_prepare_invariant (aTime : float)
    (this : BiquadResonantFilterInstance) :
  coefficient_invariant this ->
  coefficient_invariant (filter_prepare aTime this).
Proof.
  intros Hinv. unfold filter_prepare.
  destruct (Z.eqb_spec (mDirty (filter_faders aTime this)) 0) as [Hd | Hd].
  - destruct (filter_faders_values aTime this) as (_ & _ & _ & Vd).
    cbv zeta in Vd. rewrite Hd in Vd.
    destruct (fader_active (mFrequencyFader this)) eqn:Af;
      [cbn in Vd; discriminate |].
    destruct (fader_active (mResonanceFader this)) eqn:Ar;
      [cbn in Vd; discriminate |].
    destruct (fader_active (mSampleRateFader this)) eqn:As;
      [cbn in Vd; discriminate |].
    rewrite filter_faders_idle by assumption. exact Hinv.
  - intros _. apply calcBQRParams_consistent.
Qed.

Lemma filter_invariant (this : BiquadResonantFilterInstance) (aBuffer : Buffer)
    (aSamples aStereo : Z) (aSamplerate aTime : float) :
  coefficient_invariant this ->
  coefficient_invariant
    (fst (filter this aBuffer aSamples aStereo aSamplerate aTime)).
Proof.
  intros Hinv.
  destruct (Z.eq_dec (mActive this) 0) as [Hz | Hnz].
  - unfold filter. rewrite Hz. exact Hinv.
  - apply (coefficient_invariant_settings _ (filter_prepare aTime this)).
    + now apply filter_settings.
    + now apply filter_prepare_invariant.
Qed.

(** C6.  The constructor establishes, and [setFilterParameter],
    [fadeFilterParameter], [oscillateFilterParameter] and [filter] preserve,
    the invariant: when [mDirty] is clear, the stored coefficients are the
    closed forms of §4.1 for the instance's type, sample rate, frequency and
    resonance. *)
Theorem coefficient_invariant_preserved
    (address : Z) (self : BiquadResonantFilter.BiquadResonantFilter)
    (raw this : BiquadResonantFilterInstance)
    (aAttributeId : Z) (aValue aFrom aTo aDuration aStartTime : float)
    (aBuffer : Buffer) (aSamples aStereo : Z) (aSamplerate aTime : float) :
  coefficient_invariant (createInstance address self raw)
  /\ (coefficient_invariant this ->
      coefficient_invariant (setFilterParameter aAttributeId aValue this)
      /\ coefficient_invariant
           (fadeFilterParameter aAttributeId aFrom aTo aDuration aStartTime this)
      /\ coefficient_invariant
           (oscillateFilterParameter aAttributeId aFrom aTo aDuration
              aStartTime this)
      /\ coefficient_invariant
           (fst (filter this aBuffer aSamples aStereo aSamplerate aTime))).
Proof.
  split; [apply createInstance_invariant |].
  intros Hinv. repeat split.
  - now apply setFilterParameter_invariant.
  - now apply fadeFilterParameter_invariant.
  - now apply oscillateFilterParameter_invariant.
  - now apply filter_invariant.
Qed.

(** ** Further properties of the code *)

(** *** Types without coefficients *)

Lemma calcBQRParams_no_case (this : BiquadResonantFilterInstance) :
  mFilterType this <> LOWPASS ->
  mFilterType this <> HIGHPASS ->
  mFilterType this <> BANDPASS ->
  coefficients (calcBQRParams this) = coefficients this.
Proof.
  intros Hl Hh Hb. open_instance this. unfold calcBQRParams. cbn in *.
  destruct (ty =? NONE)%Z; [reflexivity |].
  destruct (Z.eqb_spec ty LOWPASS); [contradiction |].
  destruct (Z.eqb_spec ty HIGHPASS); [contradiction |].
  destruct (Z.eqb_spec ty BANDPASS); [contradiction | reflexivity].
Qed.

(** X1.  The switch of [calcBQRParams] has no default: for NONE and for any
    integer that is none of LOWPASS, HIGHPASS, BANDPASS it writes no
    coefficient.  The instance keeps the coefficients it had, [mDirty] is
    cleared all the same, and every type but NONE leaves the instance
    active. *)
Theorem calcBQRParams_keeps_coefficients
    (this : BiquadResonantFilterInstance) :
  mFilterType this <> LOWPASS ->
  mFilterType this <> HIGHPASS ->
  mFilterType this <> BANDPASS ->
  coefficients (calcBQRParams this) = coefficients this
  /\ mDirty (calcBQRParams this) = 0%Z
  /\ (mFilterType this = NONE -> mActive (calcBQRParams this) = 0%Z)
  /\ (mFilterType this <> NONE -> mActive (calcBQRParams this) = 1%Z).
Proof.
  intros Hl Hh Hb.
  destruct (calcBQRParams_parameters this) as (_ & _ & _ & _ & Hd).
  pose proof (calcBQRParams_active this) as Ha.
  split; [now apply calcBQRParams_no_case |].
  split; [exact Hd |].
  split; intros Hn.
  - rewrite Ha, Hn. reflexivity.
  - rewrite Ha. destruct (Z.eqb_spec (mFilterType this) NONE);
      [contradiction | reflexivity].
Qed.

Lemma ctor_assignments_members (raw : BiquadResonantFilterInstance)
    (aParent : Z) (parent : BiquadResonantFilter.BiquadResonantFilter) :
  let pre := ctor_assignments raw aParent parent in
  mFilterType pre = BiquadResonantFilter.mFilterType parent
  /\ coefficients pre = coefficients raw
  /\ mParent pre = aParent
  /\ mResonanceFader pre = Fader_ctor
  /\ mFrequencyFader pre = Fader_ctor
  /\ mSampleRateFader pre = Fader_ctor.
Proof.
  open_instance raw. destruct parent. vm_compute. auto 10.
Qed.

(** X2.  [setParams] takes any integer as the type and the constructor does
    not check it: an instance made from a template whose type is neither
    NONE, LOWPASS, HIGHPASS nor BANDPASS is active, and its coefficients are
    whatever the storage held. *)
Theorem createInstance_unknown_type
    (this : Z) (self : BiquadResonantFilter.BiquadResonantFilter)
    (raw : BiquadResonantFilterInstance) :
  BiquadResonantFilter.mFilterType self <> NONE ->
  BiquadResonantFilter.mFilterType self <> LOWPASS ->
  BiquadResonantFilter.mFilterType self <> HIGHPASS ->
  BiquadResonantFilter.mFilterType self <> BANDPASS ->
  let r := createInstance this self raw in
  mActive r = 1%Z
  /\ mDirty r = 0%Z
  /\ coefficients r = coefficients raw.
Proof.
  intros Hn Hl Hh Hb. cbv zeta.
  unfold createInstance, BiquadResonantFilterInstance_ctor.
  destruct (ctor_assignments_members raw this self) as (Ht & Hc & _).
  set (pre := ctor_assignments raw this self) in *.
  destruct (calcBQRParams_parameters pre) as (_ & _ & _ & _ & Hd).
  split; [| split].
  - rewrite calcBQRParams_active, Ht.
    destruct (Z.eqb_spec (BiquadResonantFilter.mFilterType self) NONE);
      [contradiction | reflexivity].
  - exact Hd.
  - rewrite calcBQRParams_no_case by (rewrite Ht; assumption). exact Hc.
Qed.

(** *** Sample counts that are odd, zero or negative *)

Lemma for_loop_odd_bound {St : Type} (body : Z -> St -> St) :
  forall (k fuel1 fuel2 : nat) (i : Z) (st : St),
    (k < fuel1)%nat -> (k < fuel2)%nat ->
    for_loop fuel1 i (i + 2 * Z.of_nat k + 1) 2 body st
    = for_loop fuel2 i (i + 2 * Z.of_nat k + 1 + 1) 2 body st.
Proof.
  induction k as [| k IH]; intros fuel1 fuel2 i st H1 H2;
    (destruct fuel1 as [| fuel1]; [lia |]);
    (destruct fuel2 as [| fuel2]; [lia |]); cbn [for_loop].
  - destruct (Z.ltb_spec i (i + 2 * Z.of_nat 0 + 1)); [| lia].
    destruct (Z.ltb_spec i (i + 2 * Z.of_nat 0 + 1 + 1)); [| lia].
    destruct fuel1, fuel2; cbn [for_loop]; try reflexivity;
      repeat match goal with
             | |- context [(?a <? ?b)%Z] => destruct (Z.ltb_spec a b); try lia
             end; reflexivity.
  - destruct (Z.ltb_spec i (i + 2 * Z.of_nat (S k) + 1)); [| lia].
    destruct (Z.ltb_spec i (i + 2 * Z.of_nat (S k) + 1 + 1)); [| lia].
    replace (i + 2 * Z.of_nat (S k) + 1)%Z
      with ((i + 2) + 2 * Z.of_nat k + 1)%Z by lia.
    apply IH; lia.
Qed.

Lemma filter_samples_odd (aSamples pitch s : Z)
    (st : BiquadResonantFilterInstance * Buffer) :
  Z.odd aSamples = true ->
  filter_samples aSamples pitch s st = filter_samples (aSamples + 1) pitch s st.
Proof.
  intros Hodd. unfold filter_samples.
  destruct (Z.le_gt_cases 0 aSamples) as [Hpos | Hneg].
  - apply Z.odd_spec in Hodd. destruct Hodd as [q Hq].
    replace aSamples with (0 + 2 * Z.of_nat (Z.to_nat q) + 1)%Z at 2 4 by lia.
    apply for_loop_odd_bound; lia.
  - replace (Z.to_nat aSamples) with 0%nat by lia.
    replace (Z.to_nat (aSamples + 1)) with 0%nat by lia. reflexivity.
Qed.

Lemma filter_samples_none (aSamples pitch s : Z)
    (st : BiquadResonantFilterInstance * Buffer) :
  (aSamples <= 0)%Z ->
  filter_samples aSamples pitch s st = st.
Proof.
  intros Hn. unfold filter_samples.
  replace (Z.to_nat aSamples) with 0%nat by lia. reflexivity.
Qed.

(** X3.  The inner loop steps by two and tests only [i < aSamples]: with an
    odd sample count it runs its body for the last sample as well, so the
    call does exactly what it does for the next even count, reading and
    writing the sample after the block. *)
Theorem filter_odd_count_rounds_up
    (this : BiquadResonantFilterInstance) (aBuffer : Buffer)
    (aSamples aStereo : Z) (aSamplerate aTime : float) :
  Z.odd aSamples = true ->
  filter this aBuffer aSamples aStereo aSamplerate aTime
  = filter this aBuffer (aSamples + 1) aStereo aSamplerate aTime.
Proof.
  intros Hodd. unfold filter.
  destruct (mActive this =? 0)%Z; [reflexivity |].
  assert (Hc : forall pitch s st,
             filter_channel aSamples pitch s st
             = filter_channel (aSamples + 1) pitch s st).
  { intros pitch s st. unfold filter_channel.
    now rewrite filter_samples_odd. }
  destruct (aStereo =? 0)%Z.
  - rewrite !channel_loop_mono. apply Hc.
  - rewrite !channel_loop_stereo, !Hc. reflexivity.
Qed.

Lemma biased_history (s : Z) (before after : BiquadResonantFilterInstance) :
  biased s before after -> history after s = bias_y1 (history before s).
Proof. intros (Hb & _). exact Hb. Qed.

(** X4.  A call with no samples (a count of zero or less) on an active
    instance is not a no-op: the buffer is untouched, but the parameters are
    refreshed as in any call and the bias is added to [mY1] of every
    processed channel. *)
Theorem filter_empty_block
    (this : BiquadResonantFilterInstance) (aBuffer : Buffer)
    (aSamples aStereo : Z) (aSamplerate aTime : float) :
  mActive this <> 0%Z ->
  (aSamples <= 0)%Z ->
  let r := filter this aBuffer aSamples aStereo aSamplerate aTime in
  snd r = aBuffer
  /\ settings (fst r) = settings (filter_prepare aTime this)
  /\ history (fst r) 0 = bias_y1 (history this 0)
  /\ history (fst r) 1 =
       (if (aStereo =? 0)%Z then history this 1
        else bias_y1 (history this 1)).
Proof.
  intros Ha Hn r.
  destruct (filter_prepare_frame aTime this) as (Ph & _).
  assert (Hc : forall pitch s t,
             filter_channel aSamples pitch s (t, aBuffer)
             = (filter_bias s t, aBuffer)).
  { intros pitch s t. rewrite filter_channel_eq, filter_samples_none by lia.
    reflexivity. }
  assert (Hr : r = if (aStereo =? 0)%Z
                   then (filter_bias 0 (filter_prepare aTime this), aBuffer)
                   else (filter_bias 1
                           (filter_bias 0 (filter_prepare aTime this)),
                         aBuffer)).
  { subst r. rewrite filter_active by assumption.
    destruct (aStereo =? 0)%Z; rewrite !Hc; reflexivity. }
  set (p := filter_prepare aTime this) in *.
  destruct (filter_bias_biased 0 p) as (B0 & O0 & S0).
  destruct (filter_bias_biased 1 (filter_bias 0 p)) as (B1 & O1 & S1).
  assert (X01 : other_channel 0 1) by (unfold other_channel; cbn; discriminate).
  assert (X10 : other_channel 1 0) by (unfold other_channel; cbn; discriminate).
  rewrite Hr. destruct (aStereo =? 0)%Z; cbn [fst snd].
  - rewrite B0, (O0 1 X01), !Ph. auto.
  - rewrite (O1 0 X10), B0, B1, (O0 1 X01), !Ph.
    repeat split; congruence.
Qed.

(** *** A whole block *)

Lemma channel_samples_ext (b b' : Buffer) (pitch s : Z) (n : nat) :
  (forall k, (0 <= k < Z.of_nat n)%Z ->
             b' (k * pitch + s)%Z = b (k * pitch + s)%Z) ->
  channel_samples b' pitch s n = channel_samples b pitch s n.
Proof.
  intros Hb. unfold channel_samples. apply map_ext_in.
  intros k Hk. apply in_seq in Hk. apply Hb. lia.
Qed.

(** One pass of the outer loop over an even number of samples. *)
Lemma filter_channel_direct_form (aSamples pitch s : Z)
    (this : BiquadResonantFilterInstance) (b : Buffer) :
  (0 < pitch)%Z ->
  Z.even aSamples = true ->
  let n := Z.to_nat aSamples in
  let r := filter_channel aSamples pitch s (this, b) in
  let d := direct_form (coefficients this) (history this s)
                       (channel_samples b pitch s n) in
  channel_samples (snd r) pitch s n = fst d
  /\ (forall j, (forall k, (0 <= k < aSamples)%Z -> j <> (k * pitch + s)%Z) ->
                snd r j = b j)
  /\ history (fst r) s = bias_y1 (snd d)
  /\ (forall s', other_channel s s' -> history (fst r) s' = history this s')
  /\ settings (fst r) = settings this.
Proof.
  intros Hp Heven n r d.
  set (m := Z.to_nat (aSamples / 2)).
  assert (Hn : n = (2 * m)%nat).
  { subst n m. apply Z.even_spec in Heven. destruct Heven as [q ->].
    rewrite Z.mul_comm, Z.div_mul by lia. lia. }
  assert (Hl : filter_samples aSamples pitch s (this, b)
               = for_loop (Z.to_nat aSamples) 0 (0 + 2 * Z.of_nat m) 2
                          (filter_pair pitch s) (this, b)).
  { unfold filter_samples.
    destruct (Z.le_gt_cases 0 aSamples) as [Hpos | Hneg].
    - replace (0 + 2 * Z.of_nat m)%Z with aSamples; [reflexivity |].
      subst m. apply Z.even_spec in Heven. destruct Heven as [q ->].
      rewrite (Z.mul_comm 2 q), Z.div_mul by lia. lia.
    - replace (Z.to_nat aSamples) with 0%nat by lia. reflexivity. }
  destruct (filter_pairs_direct_form pitch s Hp m (Z.to_nat aSamples) 0
              this b) as [Ht Hb]; [fold n; lia |].
  rewrite <- Hl, <- Hn, <- channel_samples_from in Ht, Hb. fold d in Ht, Hb.
  assert (Hlen : length (fst d) = n).
  { subst d. rewrite direct_form_length. unfold channel_samples.
    now rewrite length_map, length_seq. }
  destruct (filter_channel_frame aSamples pitch s this b) as [Fs Fo].
  fold r in Fs, Fo.
  subst r. rewrite filter_channel_eq in *. cbn [fst snd] in *.
  repeat match goal with |- _ /\ _ => split end.
  - rewrite channel_samples_from.
    rewrite (samples_from_ext (write_channel b pitch s 0 (fst d)))
      by (intros k _; apply Hb).
    rewrite <- Hlen. now apply samples_from_write_channel.
  - intros j Hj. rewrite Hb. apply write_channel_other.
    intros k Hk. apply Hj. rewrite Hlen in Hk. subst n. lia.
  - rewrite (biased_history s _ _ (filter_bias_biased s _)).
    rewrite Ht, history_with_history. reflexivity.
  - exact Fo.
  - exact Fs.
Qed.

(** The whole call, channel by channel. *)
Lemma filter_block_channel
    (this : BiquadResonantFilterInstance) (aBuffer : Buffer)
    (aSamples aStereo : Z) (aSamplerate aTime : float) (s : Z) :
  mActive this <> 0%Z ->
  Z.even aSamples = true ->
  let pitch := if (aStereo =? 0)%Z then 1%Z else 2%Z in
  (0 <= s < pitch)%Z ->
  let n := Z.to_nat aSamples in
  let r := filter this aBuffer aSamples aStereo aSamplerate aTime in
  let d := direct_form (coefficients (filter_prepare aTime this))
                       (history this s) (channel_samples aBuffer pitch s n) in
  channel_samples (snd r) pitch s n = fst d
  /\ history (fst r) s = bias_y1 (snd d).
Proof.
  intros Ha Heven pitch Hs n r d. subst d n.
  destruct (filter_prepare_frame aTime this) as (Ph & _).
  set (p := filter_prepare aTime this) in *.
  subst r. rewrite filter_active by assumption. fold p.
  subst pitch. destruct (aStereo =? 0)%Z.
  - assert (Hs0 : (s = 0)%Z) by lia. subst s.
    destruct (filter_channel_direct_form aSamples 1 0 p aBuffer)
      as (Hout & _ & Hh & _); [lia | assumption |].
    rewrite Ph in Hout, Hh. split; assumption.
  - destruct (filter_channel_direct_form aSamples 2 0 p aBuffer)
      as (Hout0 & Hfr0 & Hh0 & Ho0 & Hs0); [lia | assumption |].
    destruct (filter_channel aSamples 2 0 (p, aBuffer)) as [c0 b0] eqn:E0.
    cbn [fst snd] in Hout0, Hfr0, Hh0, Ho0, Hs0.
    destruct (filter_channel_direct_form aSamples 2 1 c0 b0)
      as (Hout1 & Hfr1 & Hh1 & Ho1 & Hs1); [lia | assumption |].
    apply settings_members in Hs0. destruct Hs0 as (_ & Hc0 & _).
    assert (X01 : other_channel 0 1)
      by (unfold other_channel; cbn; discriminate).
    assert (X10 : other_channel 1 0)
      by (unfold other_channel; cbn; discriminate).
    assert (Hin1 : channel_samples b0 2 1 (Z.to_nat aSamples)
                   = channel_samples aBuffer 2 1 (Z.to_nat aSamples)).
    { apply channel_samples_ext. intros k _. apply Hfr0. intros k' _. lia. }
    rewrite Hc0, (Ho0 1 X01), Hin1, Ph in Hout1, Hh1.
    rewrite Ph in Hout0, Hh0.
    assert (Hcase : (s = 0 \/ s = 1)%Z) by lia.
    destruct Hcase as [-> | ->].
    + split.
      * rewrite <- Hout0. apply channel_samples_ext.
        intros k _. apply Hfr1. intros k' _. lia.
      * rewrite (Ho1 0 X10). exact Hh0.
    + split; assumption.
Qed.

Lemma filter_block_outside
    (this : BiquadResonantFilterInstance) (aBuffer : Buffer)
    (aSamples aStereo : Z) (aSamplerate aTime : float) (j : Z) :
  Z.even aSamples = true ->
  let pitch := if (aStereo =? 0)%Z then 1%Z else 2%Z in
  (j < 0 \/ aSamples * pitch <= j)%Z ->
  snd (filter this aBuffer aSamples aStereo aSamplerate aTime) j = aBuffer j.
Proof.
  intros Heven pitch Hj.
  destruct (Z.eq_dec (mActive this) 0) as [Hz | Hnz].
  - unfold filter. rewrite Hz. reflexivity.
  - rewrite filter_active by assumption.
    set (p := filter_prepare aTime this).
    subst pitch. destruct (aStereo =? 0)%Z.
    + destruct (filter_channel_direct_form aSamples 1 0 p aBuffer)
        as (_ & Hfr & _); [lia | assumption |].
      apply Hfr. intros k Hk. lia.
    + destruct (filter_channel aSamples 2 0 (p, aBuffer)) as [c0 b0] eqn:E0.
      destruct (filter_channel_direct_form aSamples 2 1 c0 b0)
        as (_ & Hfr1 & _); [lia | assumption |].
      destruct (filter_channel_direct_form aSamples 2 0 p aBuffer)
        as (_ & Hfr0 & _); [lia | assumption |].
      rewrite E0 in Hfr0. cbn [snd] in Hfr0.
      rewrite Hfr1 by (intros k Hk; lia).
      apply Hfr0. intros k Hk. lia.
Qed.

(** X5.  A call on an active instance with an even sample count filters each
    channel of the interleaved buffer on its own: the samples of a processed
    channel become the outputs of the direct-form recurrence run over that
    channel's samples, with the coefficients in force after the parameter
    refresh and from the history stored for that channel; the history left
    for the channel is the one the recurrence ends with, with the bias added
    to its last output; the elements before and after the block are
    untouched. *)
Theorem filter_block_is_direct_form
    (this : BiquadResonantFilterInstance) (aBuffer : Buffer)
    (aSamples aStereo : Z) (aSamplerate aTime : float) :
  mActive this <> 0%Z ->
  Z.even aSamples = true ->
  let pitch := if (aStereo =? 0)%Z then 1%Z else 2%Z in
  let n := Z.to_nat aSamples in
  let r := filter this aBuffer aSamples aStereo aSamplerate aTime in
  let c := coefficients (filter_prepare aTime this) in
  (forall s, (0 <= s < pitch)%Z ->
     let d := direct_form c (history this s)
                          (channel_samples aBuffer pitch s n) in
     channel_samples (snd r) pitch s n = fst d
     /\ history (fst r) s = bias_y1 (snd d))
  /\ (forall j, (j < 0 \/ aSamples * pitch <= j)%Z -> snd r j = aBuffer j)
  /\ coefficients (fst r) = c.
Proof.
  intros Ha Heven pitch n r c.
  split; [| split].
  - intros s Hs. now apply filter_block_channel.
  - intros j Hj. now apply filter_block_outside.
  - pose proof (filter_settings this aBuffer aSamples aStereo aSamplerate
                  aTime Ha) as Hset.
    apply settings_members in Hset. destruct Hset as (_ & Hc & _). exact Hc.
Qed.

(** X6.  No sample leaks from one channel into the other: if two buffers
    hold the same samples in a processed channel, the same call on the same
    instance leaves the same samples in that channel of both and the same
    history for it, whatever the other channel holds. *)
Theorem filter_channels_do_not_mix
    (this : BiquadResonantFilterInstance) (aBuffer aBuffer' : Buffer)
    (aSamples aStereo : Z) (aSamplerate aTime : float) (s : Z) :
  mActive this <> 0%Z ->
  Z.even aSamples = true ->
  let pitch := if (aStereo =? 0)%Z then 1%Z else 2%Z in
  (0 <= s < pitch)%Z ->
  let n := Z.to_nat aSamples in
  channel_samples aBuffer' pitch s n = channel_samples aBuffer pitch s n ->
  let r := filter this aBuffer aSamples aStereo aSamplerate aTime in
  let r' := filter this aBuffer' aSamples aStereo aSamplerate aTime in
  channel_samples (snd r') pitch s n = channel_samples (snd r) pitch s n
  /\ history (fst r') s = history (fst r) s.
Proof.
  intros Ha Heven pitch Hs n Hsame r r'.
  destruct (filter_block_channel this aBuffer aSamples aStereo aSamplerate
              aTime s Ha Heven Hs) as [Ho Hh].
  destruct (filter_block_channel this aBuffer' aSamples aStereo aSamplerate
              aTime s Ha Heven Hs) as [Ho' Hh'].
  fold pitch n in Ho, Hh, Ho', Hh'. fold r in Ho, Hh. fold r' in Ho', Hh'.
  rewrite Hsame in Ho', Hh'.
  split; congruence.
Qed.

(** *** Setting a parameter, then filtering *)

Lemma filter_dirty_recomputes
    (this : BiquadResonantFilterInstance) (aBuffer : Buffer)
    (aSamples aStereo : Z) (aSamplerate aTime : float) :
  mActive this <> 0%Z ->
  mDirty this <> 0%Z ->
  let r := fst (filter this aBuffer aSamples aStereo aSamplerate aTime) in
  let u := filter_faders aTime this in
  consistent r
  /\ mFrequency r = mFrequency u
  /\ mSampleRate r = mSampleRate u
  /\ mResonance r = mResonance u
  /\ mFilterType r = mFilterType this.
Proof.
  intros Ha Hd r u.
  pose proof (filter_settings this aBuffer aSamples aStereo aSamplerate aTime Ha)
    as Hs.
  fold r in Hs.
  destruct (filter_faders_values aTime this) as (_ & _ & _ & Vd).
  destruct (filter_faders_frame aTime this) as (_ & Ft & _).
  fold u in Vd, Ft.
  assert (Hdu : mDirty u <> 0%Z).
  { rewrite Vd. destruct (_ || _); [discriminate | exact Hd]. }
  assert (Hp : filter_prepare aTime this = calcBQRParams u).
  { unfold filter_prepare. fold u.
    destruct (Z.eqb_spec (mDirty u) 0); [contradiction | reflexivity]. }
  rewrite Hp in Hs.
  apply settings_members in Hs.
  destruct Hs as (_ & Hco & _ & Hty & Hsr & Hfr & Hre & _).
  destruct (calcBQRParams_parameters u) as (Ct & Cs & Cf & Cr & _).
  repeat match goal with |- _ /\ _ => split end; try congruence.
  intros k Hk. rewrite Hco, Hsr, Hfr, Hre.
  apply (calcBQRParams_consistent u). congruence.
Qed.

Lemma setFilterParameter_members (aAttributeId : Z) (aValue : float)
    (this : BiquadResonantFilterInstance) :
  let r := setFilterParameter aAttributeId aValue this in
  mActive r = mActive this
  /\ mFilterType r = mFilterType this
  /\ coefficients r = coefficients this
  /\ (forall s, history r s = history this s)
  /\ (known_attribute aAttributeId = true -> mDirty r = 1%Z)
  /\ (aAttributeId = FREQUENCY ->
      mFrequency r = aValue /\ fader_active (mFrequencyFader r) = false)
  /\ (aAttributeId = SAMPLERATE ->
      mSampleRate r = aValue /\ fader_active (mSampleRateFader r) = false)
  /\ (aAttributeId = RESONANCE ->
      mResonance r = aValue /\ fader_active (mResonanceFader r) = false).
Proof.
  open_instance this. cbv zeta. unfold setFilterParameter, known_attribute.
  destruct (Z.eqb_spec aAttributeId FREQUENCY) as [-> | H0];
    [cbn; repeat split; try reflexivity; discriminate |].
  destruct (Z.eqb_spec aAttributeId SAMPLERATE) as [-> | H1];
    [cbn; repeat split; try reflexivity; discriminate |].
  destruct (Z.eqb_spec aAttributeId RESONANCE) as [-> | H2];
    [cbn; repeat split; try reflexivity; discriminate |].
  cbn. repeat split; try reflexivity; try discriminate; contradiction.
Qed.

(** X7.  A value set with [setFilterParameter] is the one the next call of
    [filter] on an active instance works with, even when a fader was driving
    that parameter: the parameter still holds the value after the call, and
    the coefficients are the closed forms for it (and for the sample rate,
    frequency and resonance the call ends with). *)
Theorem set_parameter_takes_effect
    (this : BiquadResonantFilterInstance) (k : ResonantType) (aValue : float)
    (aBuffer : Buffer) (aSamples aStereo : Z) (aSamplerate aTime : float) :
  mActive this <> 0%Z ->
  mFilterType this = type_code k ->
  let after aAttributeId :=
    fst (filter (setFilterParameter aAttributeId aValue this)
                aBuffer aSamples aStereo aSamplerate aTime) in
  let closed_forms r :=
    coefficients r
    = spec_coefficients k (mSampleRate r) (mFrequency r) (mResonance r) in
  (mFrequency (after FREQUENCY) = aValue /\ closed_forms (after FREQUENCY))
  /\ (mSampleRate (after SAMPLERATE) = aValue
      /\ closed_forms (after SAMPLERATE))
  /\ (mResonance (after RESONANCE) = aValue
      /\ closed_forms (after RESONANCE)).
Proof.
  intros Ha Hk after closed_forms.
  assert (G : forall aAttributeId,
             known_attribute aAttributeId = true ->
             let t := setFilterParameter aAttributeId aValue this in
             consistent (after aAttributeId)
             /\ mFrequency (after aAttributeId)
                = mFrequency (filter_faders aTime t)
             /\ mSampleRate (after aAttributeId)
                = mSampleRate (filter_faders aTime t)
             /\ mResonance (after aAttributeId)
                = mResonance (filter_faders aTime t)
             /\ mFilterType (after aAttributeId) = mFilterType this).
  { intros aAttributeId Hknown t.
    destruct (setFilterParameter_members aAttributeId aValue this)
      as (Sa & St & _ & _ & Sd & _).
    fold t in Sa, St, Sd.
    destruct (filter_dirty_recomputes t aBuffer aSamples aStereo aSamplerate
                aTime) as (Hc & Hf & Hs & Hr & Ht).
    - rewrite Sa. exact Ha.
    - rewrite (Sd Hknown). discriminate.
    - subst after. cbv beta. fold t.
      split; [exact Hc |]. split; [exact Hf |]. split; [exact Hs |].
      split; [exact Hr | congruence]. }
  split; [| split].
  - destruct (G FREQUENCY eq_refl) as (Hc & Hf & _ & _ & Ht).
    destruct (setFilterParameter_members FREQUENCY aValue this)
      as (_ & _ & _ & _ & _ & Sf & _).
    destruct (Sf eq_refl) as [Sv Sfa].
    destruct (filter_faders_values aTime
                (setFilterParameter FREQUENCY aValue this)) as (Vf & _).
    rewrite Sfa, Sv in Vf.
    split; [congruence | apply Hc; congruence].
  - destruct (G SAMPLERATE eq_refl) as (Hc & _ & Hs & _ & Ht).
    destruct (setFilterParameter_members SAMPLERATE aValue this)
      as (_ & _ & _ & _ & _ & _ & Ss & _).
    destruct (Ss eq_refl) as [Sv Sfa].
    destruct (filter_faders_values aTime
                (setFilterParameter SAMPLERATE aValue this))
      as (_ & _ & Vs & _).
    rewrite Sfa, Sv in Vs.
    split; [congruence | apply Hc; congruence].
  - destruct (G RESONANCE eq_refl) as (Hc & _ & _ & Hr & Ht).
    destruct (setFilterParameter_members RESONANCE aValue this)
      as (_ & _ & _ & _ & _ & _ & _ & Sr).
    destruct (Sr eq_refl) as [Sv Sfa].
    destruct (filter_faders_values aTime
                (setFilterParameter RESONANCE aValue this))
      as (_ & Vr & _).
    rewrite Sfa, Sv in Vr.
    split; [congruence | apply Hc; congruence].
Qed.

(** X8.  Setting the same parameter twice leaves what the second call alone
    would leave, and calls for two different identifiers can be made in
    either order. *)
Theorem setFilterParameter_composes
    (a b : Z) (v w : float) (this : BiquadResonantFilterInstance) :
  setFilterParameter a w (setFilterParameter a v this)
  = setFilterParameter a w this
  /\ (a <> b ->
      setFilterParameter a v (setFilterParameter b w this)
      = setFilterParameter b w (setFilterParameter a v this)).
Proof.
  open_instance this. destruct rf, ff, sf.
  unfold setFilterParameter, FREQUENCY, SAMPLERATE, RESONANCE.
  split.
  - destruct (Z.eqb_spec a 0); [reflexivity |].
    destruct (Z.eqb_spec a 1); [reflexivity |].
    destruct (Z.eqb_spec a 2); reflexivity.
  - intros Hab.
    destruct (Z.eqb_spec a 0), (Z.eqb_spec a 1), (Z.eqb_spec a 2),
      (Z.eqb_spec b 0), (Z.eqb_spec b 1), (Z.eqb_spec b 2);
      try lia; reflexivity.
Qed.

(** *** Fades and oscillations *)

(** X9.  A fade or oscillation request, whatever its arguments, changes
    neither a parameter, nor the dirty flag, the coefficients, the activity
    or the history: it touches at most the fader its identifier names, and
    nothing at all when the identifier is unknown.  The request shows in the
    parameters only when [filter] next asks the fader. *)
Theorem fade_and_oscillate_frame
    (aAttributeId : Z) (aFrom aTo aTime aStartTime : float)
    (this : BiquadResonantFilterInstance) :
  let frame (r : BiquadResonantFilterInstance) :=
    (forall s, history r s = history this s)
    /\ (mActive r, coefficients r, mDirty r, mFilterType r, mParent r)
       = (mActive this, coefficients this, mDirty this, mFilterType this,
          mParent this)
    /\ (mSampleRate r, mFrequency r, mResonance r)
       = (mSampleRate this, mFrequency this, mResonance this)
    /\ (aAttributeId <> FREQUENCY -> mFrequencyFader r = mFrequencyFader this)
    /\ (aAttributeId <> SAMPLERATE ->
        mSampleRateFader r = mSampleRateFader this)
    /\ (aAttributeId <> RESONANCE -> mResonanceFader r = mResonanceFader this)
    /\ (known_attribute aAttributeId = false -> r = this) in
  frame (fadeFilterParameter aAttributeId aFrom aTo aTime aStartTime this)
  /\ frame
       (oscillateFilterParameter aAttributeId aFrom aTo aTime aStartTime this).
Proof.
  open_instance this. cbv zeta.
  unfold fadeFilterParameter, oscillateFilterParameter, known_attribute.
  destruct ((aFrom == aTo) || (aTime <=? f_of_int 0));
    [repeat split; reflexivity |].
  destruct (Z.eqb_spec aAttributeId FREQUENCY) as [-> | H0];
    [cbn; repeat split; try reflexivity; try discriminate; contradiction |].
  destruct (Z.eqb_spec aAttributeId SAMPLERATE) as [-> | H1];
    [cbn; repeat split; try reflexivity; try discriminate; contradiction |].
  destruct (Z.eqb_spec aAttributeId RESONANCE) as [-> | H2];
    [cbn; repeat split; try reflexivity; try discriminate; contradiction |].
  cbn. repeat split; reflexivity.
Qed.

(** *** The faders across a call of [filter] *)

Lemma filter_faders_faders (aTime : float)
    (this : BiquadResonantFilterInstance) :
  let u := filter_faders aTime this in
  mFrequencyFader u = (if fader_active (mFrequencyFader this)
                       then snd (Fader_get aTime (mFrequencyFader this))
                       else mFrequencyFader this)
  /\ mResonanceFader u = (if fader_active (mResonanceFader this)
                          then snd (Fader_get aTime (mResonanceFader this))
                          else mResonanceFader this)
  /\ mSampleRateFader u = (if fader_active (mSampleRateFader this)
                           then snd (Fader_get aTime (mSampleRateFader this))
                           else mSampleRateFader this).
Proof.
  open_instance this.
  run_faders aTime rf ff sf; auto.
Qed.

(** X10.  [filter] on an active instance asks exactly the faders that are
    active, each once and with [aTime], and keeps each as the call of [get]
    left it; a fader that is not active is not touched.  On an inactive
    instance no fader is asked. *)
Theorem filter_fader_states
    (this : BiquadResonantFilterInstance) (aBuffer : Buffer)
    (aSamples aStereo : Z) (aSamplerate aTime : float) :
  let r := fst (filter this aBuffer aSamples aStereo aSamplerate aTime) in
  let asked (f : FaderT) :=
    if (mActive this =? 0)%Z then f
    else if fader_active f then snd (Fader_get aTime f) else f in
  mFrequencyFader r = asked (mFrequencyFader this)
  /\ mResonanceFader r = asked (mResonanceFader this)
  /\ mSampleRateFader r = asked (mSampleRateFader this).
Proof.
  intros r asked. subst asked. cbv beta.
  destruct (Z.eqb_spec (mActive this) 0) as [Hz | Hnz].
  - subst r. unfold filter. rewrite Hz. cbn. auto.
  - pose proof (filter_settings this aBuffer aSamples aStereo aSamplerate
                  aTime Hnz) as Hs.
    fold r in Hs. apply settings_members in Hs.
    destruct Hs as (_ & _ & _ & _ & _ & _ & _ & Hrf & Hff & Hsf & _).
    destruct (filter_prepare_parameters aTime this)
      as (_ & _ & _ & Prf & Pff & Psf & _).
    destruct (filter_faders_faders aTime this) as (Ff & Fr & Fs).
    repeat split; congruence.
Qed.

(** *** Instances in use *)

Lemma filter_prepare_active (aTime : float)
    (this : BiquadResonantFilterInstance) :
  mActive (filter_prepare aTime this)
  = if (mDirty (filter_faders aTime this) =? 0)%Z then mActive this
    else if (mFilterType this =? NONE)%Z then 0%Z else 1%Z.
Proof.
  unfold filter_prepare.
  destruct (filter_faders_frame aTime this) as (_ & Ft & Fa & _).
  destruct (mDirty (filter_faders aTime this) =? 0)%Z; [exact Fa |].
  rewrite calcBQRParams_active, Ft. reflexivity.
Qed.

Lemma fade_oscillate_flags (aAttributeId : Z)
    (aFrom aTo aTime aStartTime : float)
    (this : BiquadResonantFilterInstance) :
  let r1 := fadeFilterParameter aAttributeId aFrom aTo aTime aStartTime this in
  let r2 :=
    oscillateFilterParameter aAttributeId aFrom aTo aTime aStartTime this in
  (mFilterType r1 = mFilterType this /\ mActive r1 = mActive this
   /\ mDirty r1 = mDirty this)
  /\ (mFilterType r2 = mFilterType this /\ mActive r2 = mActive this
      /\ mDirty r2 = mDirty this).
Proof.
  open_instance this. cbv zeta.
  unfold fadeFilterParameter, oscillateFilterParameter.
  destruct ((aFrom == aTo) || (aTime <=? f_of_int 0)); [cbn; auto 10 |].
  destruct (aAttributeId =? FREQUENCY)%Z; [cbn; auto 10 |].
  destruct (aAttributeId =? SAMPLERATE)%Z; [cbn; auto 10 |].
  destruct (aAttributeId =? RESONANCE)%Z; cbn; auto 10.
Qed.

Lemma setFilterParameter_dirty (aAttributeId : Z) (aValue : float)
    (this : BiquadResonantFilterInstance) :
  mDirty (setFilterParameter aAttributeId aValue this) = 1%Z
  \/ mDirty (setFilterParameter aAttributeId aValue this) = mDirty this.
Proof.
  open_instance this. unfold setFilterParameter.
  destruct (aAttributeId =? FREQUENCY)%Z; [left; reflexivity |].
  destruct (aAttributeId =? SAMPLERATE)%Z; [left; reflexivity |].
  destruct (aAttributeId =? RESONANCE)%Z; [left | right]; reflexivity.
Qed.

(** X11.  However an instance is used after [createInstance], through
    [setFilterParameter], [fadeFilterParameter], [oscillateFilterParameter]
    and [filter] in any order: its type stays the template's type at
    creation; it is inactive exactly when that type is NONE, so no parameter
    change ever switches a NONE instance on or another one off; [mDirty] is
    0 or 1; clean coefficients agree with the parameters; and an instance of
    a NONE template passes every buffer through unchanged. *)
Theorem reachable_invariant
    (self : BiquadResonantFilter.BiquadResonantFilter)
    (t : BiquadResonantFilterInstance) :
  reachable self t ->
  mFilterType t = BiquadResonantFilter.mFilterType self
  /\ mActive t =
       (if (BiquadResonantFilter.mFilterType self =? NONE)%Z then 0%Z else 1%Z)
  /\ (mDirty t = 0%Z \/ mDirty t = 1%Z)
  /\ coefficient_invariant t
  /\ (BiquadResonantFilter.mFilterType self = NONE ->
      forall (aBuffer : Buffer) (aSamples aStereo : Z)
             (aSamplerate aTime : float),
        filter t aBuffer aSamples aStereo aSamplerate aTime = (t, aBuffer)).
Proof.
  intros Hreach.
  assert (Hcore : mFilterType t = BiquadResonantFilter.mFilterType self
                  /\ mActive t =
                       (if (BiquadResonantFilter.mFilterType self =? NONE)%Z
                        then 0%Z else 1%Z)
                  /\ (mDirty t = 0%Z \/ mDirty t = 1%Z)
                  /\ coefficient_invariant t).
  { induction Hreach as
        [this raw
        | t aAttributeId aValue Hreach IH
        | t aAttributeId aFrom aTo aTime aStartTime Hreach IH
        | t aAttributeId aFrom aTo aTime aStartTime Hreach IH
        | t aBuffer aSamples aStereo aSamplerate aTime Hreach IH].
    - unfold createInstance, BiquadResonantFilterInstance_ctor.
      destruct (ctor_assignments_members raw this self) as (Ht & _).
      set (pre := ctor_assignments raw this self) in *.
      destruct (calcBQRParams_parameters pre) as (Ct & _ & _ & _ & Cd).
      split; [congruence |]. split; [| split].
      + rewrite calcBQRParams_active, Ht. reflexivity.
      + left. exact Cd.
      + intros _. apply calcBQRParams_consistent.
    - destruct IH as (It & Ia & Id & Ii).
      destruct (setFilterParameter_members aAttributeId aValue t)
        as (Sa & St & _).
      split; [congruence |]. split; [congruence |]. split.
      + destruct (setFilterParameter_dirty aAttributeId aValue t) as [E | E];
          rewrite E; [right; reflexivity | exact Id].
      + now apply setFilterParameter_invariant.
    - destruct IH as (It & Ia & Id & Ii).
      destruct (fade_oscillate_flags aAttributeId aFrom aTo aTime aStartTime t)
        as ((Ft & Fa & Fd) & _).
      split; [congruence |]. split; [congruence |]. split.
      + rewrite Fd. exact Id.
      + now apply fadeFilterParameter_invariant.
    - destruct IH as (It & Ia & Id & Ii).
      destruct (fade_oscillate_flags aAttributeId aFrom aTo aTime aStartTime t)
        as (_ & (Ft & Fa & Fd)).
      split; [congruence |]. split; [congruence |]. split.
      + rewrite Fd. exact Id.
      + now apply oscillateFilterParameter_invariant.
    - destruct IH as (It & Ia & Id & Ii).
      pose proof (filter_invariant t aBuffer aSamples aStereo aSamplerate
                    aTime Ii) as Hi.
      destruct (Z.eq_dec (mActive t) 0) as [Hz | Hnz].
      + assert (E : filter t aBuffer aSamples aStereo aSamplerate aTime
                    = (t, aBuffer))
          by (unfold filter; rewrite Hz; reflexivity).
        rewrite E. cbn [fst]. auto.
      + pose proof (filter_settings t aBuffer aSamples aStereo aSamplerate
                      aTime Hnz) as Hs.
        apply settings_members in Hs.
        destruct Hs as (Hact & _ & Hdi & Hty & _).
        destruct (filter_prepare_frame aTime t) as (_ & Pt & _ & Pd).
        pose proof (filter_prepare_active aTime t) as Pa.
        split; [congruence |]. split; [| split].
        * rewrite Hact, Pa, It.
          destruct (mDirty (filter_faders aTime t) =? 0)%Z;
            [exact Ia | reflexivity].
        * left. congruence.
        * exact Hi. }
  destruct Hcore as (Ht & Ha & Hd & Hi).
  repeat match goal with |- _ /\ _ => split end; try assumption.
  intros Hnone aBuffer aSamples aStereo aSamplerate aTime.
  unfold filter. rewrite Ha, Hnone. reflexivity.
Qed.

End Properties.

(** ** The theorems at concrete inputs, in the rational model *)

Import Rational.

Lemma calcBQRParams_closed_forms_witness :
  mFilterType tuned0 = type_code LowPass
  /\ feqb (mResonance tuned0) (f_of_int 0) = false
  /\ coefficients (calcBQRParams tuned0)
     = spec_coefficients LowPass (mSampleRate tuned0) (mFrequency tuned0)
         (mResonance tuned0).
Proof.
  split; [reflexivity |]. split; [reflexivity |].
  apply (calcBQRParams_closed_forms tuned0 LowPass); reflexivity.
Defined.

Lemma filter_samples_is_direct_form_witness :
  Z.even 4 = true
  /\ (0 <= 1 < 2)%Z
  /\ (let r := filter_samples 4 2 1 (running0, buffer0) in
      let d := direct_form (coefficients running0) (history running0 1)
                           (channel_samples buffer0 2 1 4) in
      channel_samples (snd r) 2 1 4 = fst d
      /\ history (fst r) 1 = snd d
      /\ fst r = with_history 1 (snd d) running0
      /\ forall j,
           (forall k, (0 <= k < 4)%Z -> j <> (k * 2 + 1)%Z) ->
           snd r j = buffer0 j).
Proof.
  split; [reflexivity |]. split; [lia |].
  apply (filter_samples_is_direct_form running0 buffer0 4 1 1);
    [reflexivity | cbn; lia].
Defined.

Lemma filter_inactive_identity_witness :
  mActive silent0 = 0%Z
  /\ filter silent0 buffer0 4 1 (inject_Z 44100) 0%Q = (silent0, buffer0).
Proof.
  split; [reflexivity |].
  apply (proj1 (filter_inactive_identity silent0 buffer0 4 1
                  (inject_Z 44100) 0%Q)).
  reflexivity.
Defined.

Lemma filter_updates_parameters_witness :
  mActive fading0 <> 0%Z
  /\ fader_active (mFrequencyFader fading0) = true
  /\ mFrequency (fst (filter fading0 buffer0 4 1 (inject_Z 44100) (1 # 2)%Q))
     = fst (Fader_get (1 # 2)%Q (mFrequencyFader fading0))
  /\ mDirty (fst (filter fading0 buffer0 4 1 (inject_Z 44100) (1 # 2)%Q)) = 0%Z.
Proof.
  assert (Ha : mActive fading0 <> 0%Z) by (vm_compute; discriminate).
  pose proof (filter_updates_parameters fading0 buffer0 4 1 (inject_Z 44100)
                (1 # 2)%Q Ha) as (Hf & _ & _ & _ & Hd & _).
  split; [exact Ha |]. split; [reflexivity |].
  split; [apply Hf; reflexivity | exact Hd].
Defined.

Lemma setFilterParameter_effect_witness :
  mFrequency (setFilterParameter FREQUENCY (hz 440) fading0)
  = hz 440
  /\ Fader.mActive
       (mFrequencyFader (setFilterParameter FREQUENCY (hz 440) fading0))
     = 0%Z
  /\ mDirty (setFilterParameter FREQUENCY (hz 440) fading0) = 1%Z.
Proof.
  apply (proj1 (setFilterParameter_effect FREQUENCY (hz 440) fading0)).
  reflexivity.
Defined.

Lemma coefficient_invariant_preserved_witness :
  coefficient_invariant tuned0
  /\ coefficient_invariant
       (fst (filter tuned0 buffer0 4 1 (inject_Z 44100) 0%Q)).
Proof.
  assert (Hi : coefficient_invariant tuned0).
  { intros Hd. vm_compute in Hd. discriminate Hd. }
  split; [exact Hi |].
  apply (proj2 (coefficient_invariant_preserved 4096 template0 raw0 tuned0
                  FREQUENCY 0%Q 0%Q 0%Q 0%Q 0%Q buffer0 4 1 (inject_Z 44100)
                  0%Q) Hi).
Defined.

Lemma degenerate_fade_is_noop_witness :
  feqb (hz 5) (hz 5) = true
  /\ fadeFilterParameter FREQUENCY (hz 5) (hz 5) (hz 1) (hz 0) tuned0
     = tuned0
  /\ oscillateFilterParameter FREQUENCY (hz 5) (hz 5) (hz 1) (hz 0) tuned0
     = tuned0.
Proof.
  split; [reflexivity |].
  apply (degenerate_fade_is_noop FREQUENCY (hz 5) (hz 5) (hz 1) (hz 0) tuned0).
  left. reflexivity.
Defined.

Lemma createInstance_effect_witness :
  BiquadResonantFilter.mFilterType template0 = type_code LowPass
  /\ coefficients fresh0
     = spec_coefficients LowPass (inject_Z 44100) (mFrequency raw0) (inject_Z 2).
Proof.
  split; [reflexivity |].
  apply (createInstance_effect 4096 template0 raw0 0%Q). reflexivity.
Defined.

Lemma filter_bias_after_each_channel_witness :
  mActive tuned0 <> 0%Z
  /\ (let result := filter tuned0 buffer0 4 1 (inject_Z 44100) 0%Q in
      let l0 := filter_samples 4 2 0 (filter_prepare 0%Q tuned0, buffer0) in
      exists c0 : BiquadResonantFilterInstance,
        biased 0 (fst l0) c0
        /\ let l1 := filter_samples 4 2 1 (c0, snd l0) in
           exists c1 : BiquadResonantFilterInstance,
             biased 1 (fst l1) c1 /\ result = (c1, snd l1)
             /\ history c1 0 = history c0 0).
Proof.
  assert (Ha : mActive tuned0 <> 0%Z) by (vm_compute; discriminate).
  split; [exact Ha |].
  exact (filter_bias_after_each_channel tuned0 buffer0 4 1 (inject_Z 44100)
           0%Q Ha).
Defined.

(** ** A few runs of the model *)

(** The constructed instance keeps as frequency what its storage held, not the
    template's 1000. *)
Example fresh0_frequency :
  mFrequency fresh0 = 32%Q
  /\ BiquadResonantFilter.mFrequency template0 = inject_Z 1000.
Proof. split; reflexivity. Qed.

(** Half way through the ramp the frequency is half way between the bounds. *)
Example fading0_half_way :
  mFrequency (fst (filter fading0 buffer0 4 1 (inject_Z 44100) (1 # 2)%Q))
  = inject_Z 1050.
Proof. vm_compute. reflexivity. Qed.

(** A stereo block: each channel of the output is the recurrence run over that
    channel of the input, from a zero history. *)
Example stereo_block_by_channel :
  let out := snd (filter tuned0 buffer0 4 1 (inject_Z 44100) 0%Q) in
  channel_samples out 2 0 4
  = fst (direct_form (coefficients running0) zero_history
           (channel_samples buffer0 2 0 4))
  /\ channel_samples out 2 1 4
     = fst (direct_form (coefficients running0) zero_history
              (channel_samples buffer0 2 1 4)).
Proof. vm_compute. split; reflexivity. Qed.

(** An odd sample count runs the loop body for the last sample too, which
    reads and writes the element after it. *)
Example odd_count_touches_next_sample :
  snd (filter tuned0 buffer0 3 0 (inject_Z 44100) 0%Q) 3%Z <> buffer0 3%Z.
Proof. vm_compute. discriminate. Qed.

(** ** The further properties at concrete inputs *)

Lemma calcBQRParams_keeps_coefficients_witness :
  mFilterType raw0 <> LOWPASS
  /\ mFilterType raw0 <> HIGHPASS
  /\ mFilterType raw0 <> BANDPASS
  /\ coefficients (calcBQRParams raw0) = coefficients raw0
  /\ mActive (calcBQRParams raw0) = 1%Z.
Proof.
  assert (Hl : mFilterType raw0 <> LOWPASS) by (vm_compute; discriminate).
  assert (Hh : mFilterType raw0 <> HIGHPASS) by (vm_compute; discriminate).
  assert (Hb : mFilterType raw0 <> BANDPASS) by (vm_compute; discriminate).
  destruct (calcBQRParams_keeps_coefficients raw0 Hl Hh Hb)
    as (Hc & _ & _ & Ha).
  assert (Hn : mFilterType raw0 <> NONE) by (vm_compute; discriminate).
  exact (conj Hl (conj Hh (conj Hb (conj Hc (Ha Hn))))).
Defined.

Lemma createInstance_unknown_type_witness :
  BiquadResonantFilter.mFilterType template7 = 7%Z
  /\ mActive (createInstance 4096 template7 raw0) = 1%Z
  /\ mDirty (createInstance 4096 template7 raw0) = 0%Z
  /\ coefficients (createInstance 4096 template7 raw0) = coefficients raw0.
Proof.
  split; [reflexivity |].
  apply (createInstance_unknown_type 4096 template7 raw0);
    vm_compute; discriminate.
Defined.

Lemma filter_odd_count_rounds_up_witness :
  Z.odd 3 = true
  /\ filter tuned0 buffer0 3 1 (hz 44100) (hz 0)
     = filter tuned0 buffer0 (3 + 1) 1 (hz 44100) (hz 0).
Proof.
  split; [reflexivity |].
  apply (filter_odd_count_rounds_up tuned0 buffer0 3 1 (hz 44100) (hz 0)).
  reflexivity.
Defined.

Lemma filter_empty_block_witness :
  mActive tuned0 <> 0%Z
  /\ (0 <= 0)%Z
  /\ snd (filter tuned0 buffer0 0 1 (hz 44100) (hz 0)) = buffer0
  /\ history (fst (filter tuned0 buffer0 0 1 (hz 44100) (hz 0))) 0
     = bias_y1 (history tuned0 0).
Proof.
  assert (Ha : mActive tuned0 <> 0%Z) by (vm_compute; discriminate).
  assert (Hn : (0 <= 0)%Z) by lia.
  destruct (filter_empty_block tuned0 buffer0 0 1 (hz 44100) (hz 0) Ha Hn)
    as (Hb & _ & H0 & _).
  exact (conj Ha (conj Hn (conj Hb H0))).
Defined.

Lemma filter_block_is_direct_form_witness :
  mActive tuned0 <> 0%Z
  /\ Z.even 4 = true
  /\ (let r := filter tuned0 buffer0 4 1 (hz 44100) (hz 0) in
      let c := coefficients (filter_prepare (hz 0) tuned0) in
      (forall s, (0 <= s < 2)%Z ->
         let d := direct_form c (history tuned0 s)
                              (channel_samples buffer0 2 s 4) in
         channel_samples (snd r) 2 s 4 = fst d
         /\ history (fst r) s = bias_y1 (snd d))
      /\ (forall j, (j < 0 \/ 4 * 2 <= j)%Z -> snd r j = buffer0 j)
      /\ coefficients (fst r) = c).
Proof.
  assert (Ha : mActive tuned0 <> 0%Z) by (vm_compute; discriminate).
  split; [exact Ha |]. split; [reflexivity |].
  exact (filter_block_is_direct_form tuned0 buffer0 4 1 (hz 44100) (hz 0)
           Ha eq_refl).
Defined.

Lemma filter_channels_do_not_mix_witness :
  mActive tuned0 <> 0%Z
  /\ Z.even 4 = true
  /\ (0 <= 0 < 2)%Z
  /\ channel_samples buffer1 2 0 4 = channel_samples buffer0 2 0 4
  /\ channel_samples (snd (filter tuned0 buffer1 4 1 (hz 44100) (hz 0))) 2 0 4
     = channel_samples (snd (filter tuned0 buffer0 4 1 (hz 44100) (hz 0))) 2 0 4
  /\ history (fst (filter tuned0 buffer1 4 1 (hz 44100) (hz 0))) 0
     = history (fst (filter tuned0 buffer0 4 1 (hz 44100) (hz 0))) 0.
Proof.
  assert (Ha : mActive tuned0 <> 0%Z) by (vm_compute; discriminate).
  assert (Hs : (0 <= 0 < 2)%Z) by lia.
  assert (Hin : channel_samples buffer1 2 0 4 = channel_samples buffer0 2 0 4)
    by reflexivity.
  destruct (filter_channels_do_not_mix tuned0 buffer0 buffer1 4 1 (hz 44100)
              (hz 0) 0 Ha eq_refl Hs Hin) as [Ho Hh].
  exact (conj Ha (conj eq_refl (conj Hs (conj Hin (conj Ho Hh))))).
Defined.

Lemma set_parameter_takes_effect_witness :
  mActive fading0 <> 0%Z
  /\ mFilterType fading0 = type_code LowPass
  /\ fader_active (mFrequencyFader fading0) = true
  /\ mFrequency
       (fst (filter (setFilterParameter FREQUENCY (hz 440) fading0)
                    buffer0 4 1 (hz 44100) (1 # 2)%Q))
     = hz 440.
Proof.
  assert (Ha : mActive fading0 <> 0%Z) by (vm_compute; discriminate).
  split; [exact Ha |]. split; [reflexivity |]. split; [reflexivity |].
  apply (set_parameter_takes_effect fading0 LowPass (hz 440) buffer0 4 1
           (hz 44100) (1 # 2)%Q Ha eq_refl).
Defined.

Lemma reachable_invariant_witness :
  reachable template0 running0
  /\ mFilterType running0 = BiquadResonantFilter.mFilterType template0
  /\ mActive running0 = 1%Z
  /\ coefficient_invariant running0.
Proof.
  assert (Hr : reachable template0 running0).
  { unfold running0, tuned0, fresh0.
    apply reach_filter, reach_set, reach_create. }
  destruct (reachable_invariant template0 running0 Hr)
    as (Ht & Ha & _ & Hi & _).
  exact (conj Hr (conj Ht (conj Ha Hi))).
Defined.
